(** * mission-control: the HTML-to-PDF deliverable route and the viewer's open action

    A shallow embedding of

    - the route handler [POST] of the PDF generation endpoint
      (tasks/:id/deliverables/:deliverableId/pdf) with its helpers
      [expandHome] and [getAllowedRoots], and
    - [handleOpen] of [src/components/DeliverablesList.tsx].

    Strings are [string]s of bytes: a JavaScript string is read as its UTF-8
    encoding.  The three regular expressions of the handler only mention
    ASCII characters and anchors, so matching on bytes and matching on
    UTF-16 code units agree.

    What the handler reaches outside itself is made explicit:
    - the process environment is an [Env];
    - the file system, as far as it is read, is an [FS]
      ([existsSync], [realpathSync]);
    - [path.normalize] and [path.sep] come from a [Platform];
    - the table [task_deliverables] is a list of rows in insertion order;
    - every call that may throw (SQL statements, the Playwright calls,
      [broadcast]) takes its outcome from an [Oracle];
    - what the handler does to the outside world is appended to a log of
      [Event]s. *)

From Stdlib Require Import String Ascii List Bool Arith Lia.
Import ListNotations.
Local Open Scope list_scope.
Local Open Scope string_scope.

(** ** JavaScript string primitives *)

Module JsString.

(** [s.startsWith(p)]. *)
Fixpoint startsWith (s p : string) {struct p} : bool :=
  match p with
  | EmptyString => true
  | String b p' =>
      match s with
      | EmptyString => false
      | String a s' => Ascii.eqb a b && startsWith s' p'
      end
  end.

(** The canonical form of a character under the [i] flag (non-unicode
    mode): ASCII letters are compared in upper case, every other byte is
    left alone. *)
Definition canonicalize (c : ascii) : ascii :=
  let n := nat_of_ascii c in
  if ((97 <=? n) && (n <=? 122))%nat then ascii_of_nat (n - 32) else c.

(** The rest of the input is exactly the literal [lit], up to case. *)
Fixpoint matches_ci (s lit : string) : bool :=
  match s, lit with
  | EmptyString, EmptyString => true
  | String a s', String b lit' =>
      Ascii.eqb (canonicalize a) (canonicalize b) && matches_ci s' lit'
  | _, _ => false
  end.

(** [/\.html?$/i] tried at the start of [s]: a dot, [htm], an optional
    [l], and then the end of the input. *)
Definition html_ext_here (s : string) : bool :=
  matches_ci s ".html" || matches_ci s ".htm".

(** [/\.html?$/i.test(s)]: the pattern is tried at every index, leftmost
    first. *)
Fixpoint test_html_ext (s : string) : bool :=
  html_ext_here s ||
  match s with
  | EmptyString => false
  | String _ s' => test_html_ext s'
  end.

(** [s.replace(/\.html?$/i, r)] for a replacement [r] without [$]: the
    leftmost match, which always reaches the end of the input, is replaced
    by [r]; a string without a match is returned as it is. *)
Fixpoint replace_html_ext (s r : string) : string :=
  if html_ext_here s then r
  else match s with
       | EmptyString => EmptyString
       | String c s' => String c (replace_html_ext s' r)
       end.

(** GetSubstitution of ECMA-262 for a pattern with no capture groups:
    in the replacement text [$$] stands for a dollar sign, [$&] for the
    matched text, [$`] for the text before the match and [$'] for the
    text after it; every other [$] is literal. *)
Fixpoint getSubstitution (matched before after r : string) : string :=
  match r with
  | EmptyString => EmptyString
  | String c r1 =>
      if Ascii.eqb c "$" then
        match r1 with
        | String d r2 =>
            if Ascii.eqb d "$" then String "$" (getSubstitution matched before after r2)
            else if Ascii.eqb d "&" then matched ++ getSubstitution matched before after r2
            else if Ascii.eqb d "`" then before ++ getSubstitution matched before after r2
            else if Ascii.eqb d "'" then after ++ getSubstitution matched before after r2
            else String c (getSubstitution matched before after r1)
        | EmptyString => String c EmptyString
        end
      else String c (getSubstitution matched before after r1)
  end.

(** [s.replace(/^~/, r)]: only index 0 can match. *)
Definition replace_leading_tilde (s r : string) : string :=
  match s with
  | String c rest =>
      if Ascii.eqb c "~" then getSubstitution "~" "" rest r ++ rest else s
  | EmptyString => s
  end.

(** [x || d] for an environment variable: an unset or empty value is
    falsy. *)
Definition or_default (x : option string) (d : string) : string :=
  match x with
  | Some (String c v) => String c v
  | _ => d
  end.

End JsString.

Import JsString.

(** ** Environment, file system, platform *)

Record Env := mkEnv {
  HOME : option string;
  WORKSPACE_BASE_PATH : option string;
  PROJECTS_PATH : option string
}.

Record FS := mkFS {
  existsSync : string -> bool;
  (** [None]: [realpathSync] throws. *)
  realpathSync : string -> option string
}.

Record Platform := mkPlatform {
  normalize : string -> string;
  sep : string
}.

(** ** Helpers of the route *)

Definition expandHome (env : Env) (p : string) : string :=
  replace_leading_tilde p (or_default (HOME env) "").

Definition getAllowedRoots (env : Env) : list string :=
  let workspaceBase :=
    replace_leading_tilde (or_default (WORKSPACE_BASE_PATH env) "~/Documents/Shared")
                          (or_default (HOME env) "") in
  let projectsBase :=
    replace_leading_tilde (or_default (PROJECTS_PATH env) "~/Documents/Shared/projects")
                          (or_default (HOME env) "") in
  [workspaceBase; projectsBase].

(** ** The table [task_deliverables] *)

(** A row, with the columns the route reads and writes.  The remaining
    columns of the table are filled by the schema's defaults and are never
    read here. *)
Record TaskDeliverable := mkDeliverable {
  id : string;
  task_id : string;
  deliverable_type : string;
  title : string;
  path : option string;
  description : option string
}.

Module Db.

(** Rows in insertion order. *)
Definition Table := list TaskDeliverable.

(** [path = ?] in SQL: a NULL path equals nothing. *)
Definition path_is (r : TaskDeliverable) (p : string) : bool :=
  match path r with
  | Some q => String.eqb q p
  | None => false
  end.

(** [SELECT * FROM task_deliverables WHERE id = ? AND task_id = ?],
    read with [.get]: the first row or [undefined]. *)
Definition select_deliverable (t : Table) (deliverableId taskId : string)
  : option TaskDeliverable :=
  find (fun r => String.eqb (id r) deliverableId && String.eqb (task_id r) taskId) t.

(** The dedup key of the route: task, type [file], exact path text. *)
Definition is_file_at (taskId p : string) (r : TaskDeliverable) : bool :=
  String.eqb (task_id r) taskId && String.eqb (deliverable_type r) "file" && path_is r p.

(** [SELECT * FROM task_deliverables WHERE task_id = ? AND
    deliverable_type = 'file' AND path = ? LIMIT 1]. *)
Definition select_file_at (t : Table) (taskId p : string) : option TaskDeliverable :=
  find (is_file_at taskId p) t.

(** [SELECT * FROM task_deliverables WHERE id = ?]. *)
Definition select_id (t : Table) (i : string) : option TaskDeliverable :=
  find (fun r => String.eqb (id r) i) t.

(** Modelled from the spec: the schema of [task_deliverables] is not among
    the sources; the data model makes [id] the unique identifier of a
    record, so an INSERT whose id is already stored fails ([None]);
    otherwise the row is added after the stored ones. *)
Definition insert (t : Table) (r : TaskDeliverable) : option Table :=
  if existsb (fun x => String.eqb (id x) (id r)) t then None else Some (t ++ [r])%list.

(** How many rows carry the dedup key. *)
Definition count_file_at (t : Table) (taskId p : string) : nat :=
  length (filter (is_file_at taskId p) t).

End Db.

(** ** Effects: state, log and exceptions *)

(** The calls into the rendering engine, the event bus and the console. *)
Inductive Op :=
| ChromiumLaunch
| NewPage
| PageGoto (url : string)
| PagePdf (file : string)
| BrowserClose
| BroadcastAdded (payload : option TaskDeliverable)
| ConsoleError.

(** A call that was made, and whether it returned (rather than threw). *)
Inductive Event := Called (op : Op) (returned : bool).

Record State := mkState {
  db : Db.Table;
  log : list Event
}.

Inductive Outcome (A : Type) :=
| Returned (a : A)
| Thrown.
Arguments Returned {A} a.
Arguments Thrown {A}.

(** A computation runs on a state and either returns or throws; what it
    did before throwing stays done. *)
Definition M (A : Type) : Type := State -> Outcome A * State.

Definition ret {A} (a : A) : M A := fun s => (Returned a, s).

Definition bind {A B} (m : M A) (k : A -> M B) : M B :=
  fun s => match m s with
           | (Returned a, s') => k a s'
           | (Thrown, s') => (Thrown, s')
           end.

Definition throw {A} : M A := fun s => (Thrown, s).

(** [try { m } catch { h }]. *)
Definition try_catch {A} (m h : M A) : M A :=
  fun s => match m s with
           | (Returned a, s') => (Returned a, s')
           | (Thrown, s') => h s'
           end.

Declare Scope js_scope.
Delimit Scope js_scope with js.
Notation "x <- m ;; k" := (bind m (fun x => k))
  (at level 61, m at next level, right associativity) : js_scope.
Notation "m ;; k" := (bind m (fun _ => k))
  (at level 61, right associativity) : js_scope.
Local Open Scope js_scope.

(** What the outside world answers during one request. *)
Record Oracle := mkOracle {
  get_deliverable_ok : bool;
  launch_ok : bool;
  newPage_ok : bool;
  goto_ok : bool;
  pdf_ok : bool;
  close_ok : bool;
  find_pdf_ok : bool;
  insert_ok : bool;
  reread_ok : bool;
  broadcast_ok : bool;
  randomUUID : string
}.

(** A call into the engine, the bus or the console. *)
Definition call (op : Op) (ok : bool) : M unit :=
  fun s => (if ok then Returned tt else Thrown,
            {| db := db s; log := (log s ++ [Called op ok])%list |}).

(** A SELECT read with [.get]. *)
Definition sql_get {A} (ok : bool) (q : Db.Table -> A) : M A :=
  fun s => if ok then (Returned (q (db s)), s) else (Thrown, s).

(** An INSERT run with [.run]. *)
Definition sql_insert (ok : bool) (r : TaskDeliverable) : M unit :=
  fun s => if ok
           then match Db.insert (db s) r with
                | Some t => (Returned tt, {| db := t; log := log s |})
                | None => (Thrown, s)
                end
           else (Thrown, s).

(** [realpathSync] outside a [try]. *)
Definition realpath_or_throw (fs : FS) (p : string) : M string :=
  match realpathSync fs p with
  | Some q => ret q
  | None => throw
  end.

(** [roots.map((root) => realpathSync(root))]. *)
Fixpoint map_realpath (fs : FS) (roots : list string) : M (list string) :=
  match roots with
  | [] => ret []
  | root :: rest =>
      r <- realpath_or_throw fs root ;;
      rs <- map_realpath fs rest ;;
      ret (r :: rs)
  end.

(** ** Responses *)

Inductive Body :=
| ErrorBody (error : string)
| SuccessBody (pdfPath : string) (deliverable : option TaskDeliverable).

(** [NextResponse.json(body, { status })]; the status defaults to 200. *)
Inductive Response := Json (body : Body) (status : nat).

Definition deliverable_not_found := Json (ErrorBody "Deliverable not found") 404.
Definition not_a_file_path := Json (ErrorBody "Deliverable is not a file path") 400.
Definition html_only :=
  Json (ErrorBody "PDF generation currently supports HTML deliverables only") 400.
Definition source_not_found := Json (ErrorBody "Source file not found") 404.
Definition unresolvable_source := Json (ErrorBody "Unable to resolve source file path") 400.
Definition outside_allowed := Json (ErrorBody "Source path is outside allowed directories") 403.
Definition generation_failed := Json (ErrorBody "Failed to generate PDF") 500.

(** ** The route handler *)

(** [!deliverable.path]: a NULL or empty path is falsy. *)
Definition path_text (d : TaskDeliverable) : string := or_default (path d) "".
Definition no_path (d : TaskDeliverable) : bool :=
  match path_text d with EmptyString => true | _ => false end.

(** [getAllowedRoots().filter(existsSync).map((root) => realpathSync(root))] *)
Definition effective_roots (env : Env) (fs : FS) : M (list string) :=
  map_realpath fs (filter (existsSync fs) (getAllowedRoots env)).

(** [allowedRoots.some((root) => resolvedSource === root ||
    resolvedSource.startsWith(root + path.sep))] *)
Definition allowed (pf : Platform) (allowedRoots : list string) (resolvedSource : string) : bool :=
  existsb (fun root => String.eqb resolvedSource root
                       || startsWith resolvedSource (root ++ sep pf)) allowedRoots.

(** The record the route inserts for a freshly rendered PDF. *)
Definition pdf_record (newId taskId : string) (deliverable : TaskDeliverable) (pdfPath : string)
  : TaskDeliverable :=
  {| id := newId;
     task_id := taskId;
     deliverable_type := "file";
     title := replace_html_ext (title deliverable) "" ++ ".pdf";
     path := Some pdfPath;
     description := Some "Generated from HTML deliverable" |}.

(** Lines 65-69: launch, open a page, load the file, print, close. *)
Definition render (o : Oracle) (resolvedSource pdfPath : string) : M unit :=
  call ChromiumLaunch (launch_ok o) ;;
  call NewPage (newPage_ok o) ;;
  call (PageGoto ("file://" ++ resolvedSource)) (goto_ok o) ;;
  call (PagePdf pdfPath) (pdf_ok o) ;;
  call BrowserClose (close_ok o).

(** Lines 71-98: insert the deliverable if not already present. *)
Definition publish (o : Oracle) (taskId : string) (deliverable : TaskDeliverable)
  (pdfPath : string) : M (option TaskDeliverable) :=
  existingPdf <- sql_get (find_pdf_ok o) (fun t => Db.select_file_at t taskId pdfPath) ;;
  match existingPdf with
  | Some e => ret (Some e)
  | None =>
      let newId := randomUUID o in
      sql_insert (insert_ok o) (pdf_record newId taskId deliverable pdfPath) ;;
      createdDeliverable <- sql_get (reread_ok o) (fun t => Db.select_id t newId) ;;
      call (BroadcastAdded createdDeliverable) (broadcast_ok o) ;;
      ret createdDeliverable
  end.

(** Lines 64-108: the [try] block and its [catch]. *)
Definition generate (o : Oracle) (taskId : string) (deliverable : TaskDeliverable)
  (resolvedSource pdfPath : string) : M Response :=
  try_catch
    (render o resolvedSource pdfPath ;;
     createdDeliverable <- publish o taskId deliverable pdfPath ;;
     ret (Json (SuccessBody pdfPath createdDeliverable) 200))
    (call ConsoleError true ;;
     ret generation_failed).

Definition POST (pf : Platform) (env : Env) (fs : FS) (o : Oracle)
  (taskId deliverableId : string) : M Response :=
  found <- sql_get (get_deliverable_ok o)
             (fun t => Db.select_deliverable t deliverableId taskId) ;;
  match found with
  | None => ret deliverable_not_found
  | Some deliverable =>
      if no_path deliverable || negb (String.eqb (deliverable_type deliverable) "file")
      then ret not_a_file_path
      else if negb (test_html_ext (path_text deliverable))
      then ret html_only
      else
        let sourcePath := normalize pf (expandHome env (path_text deliverable)) in
        if negb (existsSync fs sourcePath)
        then ret source_not_found
        else
          match realpathSync fs sourcePath with
          | None => ret unresolvable_source
          | Some resolvedSource =>
              allowedRoots <- effective_roots env fs ;;
              if negb (allowed pf allowedRoots resolvedSource)
              then ret outside_allowed
              else
                let pdfPath := replace_html_ext sourcePath ".pdf" in
                generate o taskId deliverable resolvedSource pdfPath
          end
  end.

(** ** A POSIX platform *)

Module Posix.

(** [s.split('/')]. *)
Fixpoint split_slash (cur s : string) : list string :=
  match s with
  | EmptyString => [cur]
  | String c s' =>
      if Ascii.eqb c "/" then cur :: split_slash "" s'
      else split_slash (cur ++ String c "") s'
  end.

(** One segment met by [normalizeString]; [res] holds the segments kept
    so far, last one first. *)
Definition step (allowAboveRoot : bool) (res : list string) (seg : string) : list string :=
  if String.eqb seg "" || String.eqb seg "." then res
  else if String.eqb seg ".." then
    match res with
    | last :: res' =>
        if String.eqb last ".." then (if allowAboveRoot then seg :: res else res)
        else res'
    | [] => if allowAboveRoot then [seg] else []
    end
  else seg :: res.

Fixpoint join_slash (segs : list string) : string :=
  match segs with
  | [] => ""
  | [x] => x
  | x :: rest => x ++ "/" ++ join_slash rest
  end.

Definition normalizeString (p : string) (allowAboveRoot : bool) : string :=
  join_slash (rev (fold_left (step allowAboveRoot) (split_slash "" p) [])).

Fixpoint ends_with_slash (s : string) : bool :=
  match s with
  | EmptyString => false
  | String c EmptyString => Ascii.eqb c "/"
  | String _ s' => ends_with_slash s'
  end.

(** [path.posix.normalize]. *)
Definition normalize (p : string) : string :=
  match p with
  | EmptyString => "."
  | String c _ =>
      let isAbsolute := Ascii.eqb c "/" in
      let trailingSeparator := ends_with_slash p in
      let q := normalizeString p (negb isAbsolute) in
      match q with
      | EmptyString =>
          if isAbsolute then "/" else if trailingSeparator then "./" else "."
      | _ =>
          let q' := if trailingSeparator then q ++ "/" else q in
          if isAbsolute then "/" ++ q' else q'
      end
  end.

Definition platform : Platform := mkPlatform normalize "/".

End Posix.

(** ** Percent-encoding *)

Module Uri.

(** The characters [encodeURIComponent] leaves alone: ASCII letters and
  digits and [-_.!~*'()]. *)
Definition unreserved (c : ascii) : bool :=
let n := nat_of_ascii c in
((65 <=? n) && (n <=? 90) || (97 <=? n) && (n <=? 122) || (48 <=? n) && (n <=? 57))%nat
|| existsb (Ascii.eqb c) ["-"; "_"; "."; "!"; "~"; "*"; "'"; "("; ")"]%char.

Definition hex_digit (n : nat) : ascii :=
nth n ["0"; "1"; "2"; "3"; "4"; "5"; "6"; "7"; "8"; "9";
       "A"; "B"; "C"; "D"; "E"; "F"]%char "0"%char.

(** [encodeURIComponent] on a well-formed string: every byte of the UTF-8
  encoding that is not unreserved becomes [%XX]. *)
Fixpoint encodeURIComponent (s : string) : string :=
match s with
| EmptyString => EmptyString
| String c s' =>
    if unreserved c then String c (encodeURIComponent s')
    else
      let n := nat_of_ascii c in
      String "%" (String (hex_digit (n / 16)) (String (hex_digit (n mod 16))
                                                 (encodeURIComponent s')))
end.

End Uri.

(** ** The viewer's open action *)

Module Viewer.

(** What [fetch] does with the probe: a response with its [ok] flag, or a
    rejected promise. *)
Inductive FetchResult :=
| Responded (ok : bool)
| Rejected.

(** What [handleOpen] does, in order. *)
Inductive Action :=
| DebugFile (path : string)
| Fetch (url : string)
| WindowOpen (url target : string)
| LogError.

Section HandleOpen.

(** [encodeURIComponent], total on well-formed strings. *)
Variable encodeURIComponent : string -> string.
(** The network: what a GET of a URL answers. *)
Variable fetch : string -> FetchResult.

Definition previewUrl (p : string) : string :=
  "/api/files/preview?path=" ++ encodeURIComponent p.

Definition downloadUrl (p : string) : string :=
  "/api/files/download?path=" ++ encodeURIComponent p ++ "&raw=true".

Definition handleOpen (deliverable : TaskDeliverable) : list Action :=
  if no_path deliverable then []
  else
    let p := path_text deliverable in
    if String.eqb (deliverable_type deliverable) "url"
    then [WindowOpen p "_blank"]
    else
      DebugFile p :: Fetch (previewUrl p) ::
      match fetch (previewUrl p) with
      | Responded true => [WindowOpen (previewUrl p) "_blank"]
      | Responded false => [WindowOpen (downloadUrl p) "_blank"]
      | Rejected => [LogError; WindowOpen (downloadUrl p) "_blank"]
      end.

End HandleOpen.

End Viewer.

(** ** Observations on a run *)

(** The source path the route works with, and the PDF path derived from
    it (lines 44 and 62). *)
Definition sourcePath_of (pf : Platform) (env : Env) (d : TaskDeliverable) : string :=
  normalize pf (expandHome env (path_text d)).

Definition pdfPath_of (pf : Platform) (env : Env) (d : TaskDeliverable) : string :=
  replace_html_ext (sourcePath_of pf env d) ".pdf".

(** The effective allow-list without the monad: [None] when resolving an
    existing root throws. *)
Fixpoint resolve_all (fs : FS) (roots : list string) : option (list string) :=
  match roots with
  | [] => Some []
  | root :: rest =>
      match realpathSync fs root, resolve_all fs rest with
      | Some r, Some rs => Some (r :: rs)
      | _, _ => None
      end
  end.

Definition canonical_roots (env : Env) (fs : FS) : option (list string) :=
  resolve_all fs (filter (existsSync fs) (getAllowedRoots env)).

(** Engine processes that are running after the calls of a log, [n] of
    them running before: a launch that returned starts one, a close that
    returned ends one. *)
Fixpoint running (n : nat) (l : list Event) : nat :=
  match l with
  | [] => n
  | Called ChromiumLaunch true :: l' => running (S n) l'
  | Called BrowserClose true :: l' => running (pred n) l'
  | _ :: l' => running n l'
  end.

(** Engine processes that were started and not closed. *)
Definition live_engines (l : list Event) : nat := running 0 l.

Definition is_launch (e : Event) : bool :=
  match e with Called ChromiumLaunch _ => true | _ => false end.

Definition is_broadcast (e : Event) : bool :=
  match e with Called (BroadcastAdded _) _ => true | _ => false end.

(** Calls of [chromium.launch], and of [broadcast], in a log. *)
Definition launches (l : list Event) : nat := length (filter is_launch l).
Definition broadcasts (l : list Event) : nat := length (filter is_broadcast l).

(** A request: what the route is called with and what the world answers. *)
Record Request := mkRequest {
  rq_env : Env;
  rq_fs : FS;
  rq_oracle : Oracle;
  rq_taskId : string;
  rq_deliverableId : string
}.

Definition serve (pf : Platform) (rq : Request) : M Response :=
  POST pf (rq_env rq) (rq_fs rq) (rq_oracle rq) (rq_taskId rq) (rq_deliverableId rq).

(** Requests served one after the other; an exception that leaves the
    handler ends that request only. *)
Fixpoint serve_all (pf : Platform) (rqs : list Request) (s : State) : State :=
  match rqs with
  | [] => s
  | rq :: rest => serve_all pf rest (snd (serve pf rq s))
  end.

(** The gates a request passes before the sandbox check (lines 25-54). *)
Record ReachesSandbox (pf : Platform) (env : Env) (fs : FS) (o : Oracle)
  (taskId deliverableId : string) (s : State)
  (d : TaskDeliverable) (resolvedSource : string) : Prop := {
  rs_get : get_deliverable_ok o = true;
  rs_found : Db.select_deliverable (db s) deliverableId taskId = Some d;
  rs_path : no_path d = false;
  rs_type : deliverable_type d = "file";
  rs_html : test_html_ext (path_text d) = true;
  rs_exists : existsSync fs (sourcePath_of pf env d) = true;
  rs_real : realpathSync fs (sourcePath_of pf env d) = Some resolvedSource
}.

(** A request that reaches the [try] block (line 64): it passed the gates
    and the sandbox check. *)
Record Cleared (pf : Platform) (env : Env) (fs : FS) (o : Oracle)
  (taskId deliverableId : string) (s : State)
  (d : TaskDeliverable) (resolvedSource : string) : Prop := {
  cl_gates : ReachesSandbox pf env fs o taskId deliverableId s d resolvedSource;
  cl_allowed : exists roots, canonical_roots env fs = Some roots
                             /\ allowed pf roots resolvedSource = true
}.

(** The state after the five engine calls of a render that went through. *)
Definition rendered (s : State) (resolvedSource pdfPath : string) : State :=
  {| db := db s;
     log := (log s ++ [Called ChromiumLaunch true; Called NewPage true;
                       Called (PageGoto ("file://" ++ resolvedSource)) true;
                       Called (PagePdf pdfPath) true;
                       Called BrowserClose true])%list |}.

Definition render_ok (o : Oracle) : bool :=
  launch_ok o && newPage_ok o && goto_ok o && pdf_ok o && close_ok o.

(** Containment as the specification words it: the canonical path equals
    the canonical form of an existing configured root, or starts with it
    followed by the separator. *)
Definition Contained (pf : Platform) (env : Env) (fs : FS) (resolvedSource : string) : Prop :=
  exists r0 root,
    In r0 (getAllowedRoots env) /\ existsSync fs r0 = true /\
    realpathSync fs r0 = Some root /\
    (resolvedSource = root \/ exists rest, resolvedSource = root ++ sep pf ++ rest).

(** ** Scenarios *)

Module Scenario.

Definition env : Env :=
  {| HOME := Some "/home/op";
     WORKSPACE_BASE_PATH := Some "/srv/shared";
     PROJECTS_PATH := Some "/srv/shared/projects" |}.

Definition no_home : Env :=
  {| HOME := None; WORKSPACE_BASE_PATH := None; PROJECTS_PATH := None |}.

Definition mem (p : string) (l : list string) : bool := existsb (String.eqb p) l.

(** A tree with the directory [/srv/shared] (its [projects] subdirectory
    is missing), the report [/srv/shared/out/report.html], a directory
    symlink [/srv/shared/link -> /srv/shared/out], and, outside the
    root, [/outside/link.html -> /srv/shared/out/report.html] and
    [/srv/shared/leak.html -> /etc/secret.html]. *)
Definition fs : FS :=
  {| existsSync := fun p =>
       mem p ["/srv/shared"; "/srv/shared/out/report.html"; "/srv/shared/out/report.pdf";
              "/srv/shared/link/report.html"; "/srv/shared/link/report.pdf";
              "/outside/link.html"; "/outside/link.pdf";
              "/srv/shared/leak.html"; "/etc/secret.html";
              "/srv/shared/notes.txt"];
     realpathSync := fun p =>
       if String.eqb p "/srv/shared/link/report.html" then Some "/srv/shared/out/report.html"
       else if String.eqb p "/srv/shared/link/report.pdf" then Some "/srv/shared/out/report.pdf"
       else if String.eqb p "/outside/link.html" then Some "/srv/shared/out/report.html"
       else if String.eqb p "/srv/shared/leak.html" then Some "/etc/secret.html"
       else if mem p ["/srv/shared"; "/srv/shared/out/report.html";
                      "/srv/shared/out/report.pdf"; "/outside/link.pdf";
                      "/etc/secret.html"; "/srv/shared/notes.txt"]
       then Some p
       else None |}.

Definition all_ok (uuid : string) : Oracle :=
  {| get_deliverable_ok := true; launch_ok := true; newPage_ok := true;
     goto_ok := true; pdf_ok := true; close_ok := true; find_pdf_ok := true;
     insert_ok := true; reread_ok := true; broadcast_ok := true;
     randomUUID := uuid |}.

Definition goto_fails (uuid : string) : Oracle :=
  {| get_deliverable_ok := true; launch_ok := true; newPage_ok := true;
     goto_ok := false; pdf_ok := true; close_ok := true; find_pdf_ok := true;
     insert_ok := true; reread_ok := true; broadcast_ok := true;
     randomUUID := uuid |}.

Definition broadcast_fails (uuid : string) : Oracle :=
  {| get_deliverable_ok := true; launch_ok := true; newPage_ok := true;
     goto_ok := true; pdf_ok := true; close_ok := true; find_pdf_ok := true;
     insert_ok := true; reread_ok := true; broadcast_ok := false;
     randomUUID := uuid |}.

Definition file (i t p : string) : TaskDeliverable :=
  {| id := i; task_id := "task-1"; deliverable_type := "file"; title := t;
     path := Some p; description := None |}.

Definition report := file "d-1" "Report.html" "/srv/shared/out/report.html".
Definition report_via_link := file "d-2" "Report.html" "/srv/shared/link/report.html".
Definition outside_link := file "d-3" "Link.html" "/outside/link.html".
Definition leak := file "d-4" "Leak.html" "/srv/shared/leak.html".
Definition notes := file "d-5" "notes.txt" "/srv/shared/notes.txt".

Definition store : State :=
  {| db := [report; report_via_link; outside_link; leak; notes]; log := [] |}.

Definition request (o : Oracle) (deliverableId : string) : Request :=
  {| rq_env := env; rq_fs := fs; rq_oracle := o;
     rq_taskId := "task-1"; rq_deliverableId := deliverableId |}.

End Scenario.

(** ** Characters of a string *)

(** [s.includes(c)] for a single character. *)
Fixpoint has_char (c : ascii) (s : string) : bool :=
  match s with
  | EmptyString => false
  | String a s' => Ascii.eqb a c || has_char c s'
  end.

(** ** The rest of the [DeliverablesList] component *)

Module Component.

(** The component's state (the five [useState] cells). *)
Record ViewState := mkView {
  deliverables : list TaskDeliverable;
  loading : bool;
  previewPath : option string;
  previewTitle : string;
  generatingPdfId : option string
}.

(** The state at mount. *)
Definition initial : ViewState :=
  {| deliverables := []; loading := true; previewPath := None;
     previewTitle := ""; generatingPdfId := None |}.

(** What the handlers do to the outside, in order. *)
Inductive Effect :=
| GetJson (url : string)
| PostJson (url : string) (body : option string)
| DebugFile (path : string)
| Alert (message : string)
| ConsoleError.

(** The answer to the GET of the list: a response with its [ok] flag and
    the parsed body ([None]: [res.json()] throws), or a rejected promise. *)
Inductive ListResult :=
| ListResponded (ok : bool) (data : option (list TaskDeliverable))
| ListRejected.

(** What a [catch] receives: an [Error] with its message, or some other
    value. *)
Inductive Caught :=
| ErrorObject (message : string)
| NotAnError.

(** The answer to the POST that asks for a PDF.  [error] is the [error]
    field of the parsed body, [None] when the body has none or cannot be
    parsed (the handler then reads an empty object). *)
Inductive PdfResult :=
| PdfResponded (ok : bool) (error : option string)
| PdfRejected (e : Caught).

(** Lines 24-36. *)
Definition loadDeliverables (taskId : string) (net : ListResult) (v : ViewState)
  : ViewState * list Effect :=
  let request := GetJson ("/api/tasks/" ++ taskId ++ "/deliverables") in
  let done (ds : list TaskDeliverable) :=
    {| deliverables := ds; loading := false; previewPath := previewPath v;
       previewTitle := previewTitle v; generatingPdfId := generatingPdfId v |} in
  match net with
  | ListResponded true (Some data) => (done data, [request])
  | ListResponded true None => (done (deliverables v), [request; ConsoleError])
  | ListResponded false _ => (done (deliverables v), [request])
  | ListRejected => (done (deliverables v), [request; ConsoleError])
  end.

Section Handlers.

(** [JSON.stringify({ filePath })]. *)
Variable stringify_filePath : string -> string.
Variable encodeURIComponent : string -> string.

(** Lines 83-100.  When the response is not ok the handler reads its body
    and throws, whatever the body is; the [catch] takes every exception. *)
Definition handleReveal (net : Viewer.FetchResult) (deliverable : TaskDeliverable)
  : list Effect :=
  if no_path deliverable then []
  else
    PostJson "/api/files/reveal" (Some (stringify_filePath (path_text deliverable))) ::
    match net with
    | Viewer.Responded true => []
    | Viewer.Responded false => [Alert "Could not reveal file location on this server."]
    | Viewer.Rejected => [Alert "Could not reveal file location on this server."]
    end.

(** Lines 102-108. *)
Definition handlePreview (deliverable : TaskDeliverable) (v : ViewState)
  : ViewState * list Effect :=
  if no_path deliverable then (v, [])
  else
    ({| deliverables := deliverables v; loading := loading v;
        previewPath := Some (path_text deliverable);
        previewTitle := or_default (Some (title deliverable)) "Preview";
        generatingPdfId := generatingPdfId v |},
     [DebugFile (path_text deliverable)]).

(** The close button of the preview (lines 274-277). *)
Definition closePreview (v : ViewState) : ViewState :=
  {| deliverables := deliverables v; loading := loading v;
     previewPath := None; previewTitle := "";
     generatingPdfId := generatingPdfId v |}.

(** The [src] of the preview frame, when the preview is shown (lines
    268 and 285). *)
Definition preview_src (v : ViewState) : option string :=
  match previewPath v with
  | Some (String c p) => Some ("/api/files/preview?path=" ++ encodeURIComponent (String c p))
  | _ => None
  end.

(** The state while [handleGeneratePdf] waits (line 111). *)
Definition generating (deliverable : TaskDeliverable) (v : ViewState) : ViewState :=
  {| deliverables := deliverables v; loading := loading v;
     previewPath := previewPath v; previewTitle := previewTitle v;
     generatingPdfId := Some (id deliverable) |}.

(** [finally { setGeneratingPdfId(null) }]. *)
Definition settled (v : ViewState) : ViewState :=
  {| deliverables := deliverables v; loading := loading v;
     previewPath := previewPath v; previewTitle := previewTitle v;
     generatingPdfId := None |}.

(** Lines 110-128.  [reload] is what the list request answers when the
    handler reloads. *)
Definition handleGeneratePdf (taskId : string) (net : PdfResult) (reload : ListResult)
  (deliverable : TaskDeliverable) (v : ViewState) : ViewState * list Effect :=
  let request :=
    PostJson ("/api/tasks/" ++ taskId ++ "/deliverables/" ++ id deliverable ++ "/pdf") None in
  match net with
  | PdfResponded true _ =>
      let (v', effects) := loadDeliverables taskId reload (generating deliverable v) in
      (settled v', request :: effects)
  | PdfResponded false error =>
      (settled (generating deliverable v),
       [request; Alert (or_default error "Failed to generate PDF")])
  | PdfRejected (ErrorObject message) =>
      (settled (generating deliverable v), [request; Alert message])
  | PdfRejected NotAnError =>
      (settled (generating deliverable v), [request; Alert "Failed to generate PDF"])
  end.

End Handlers.

(** The buttons of a row, left to right (lines 187-228). *)
Inductive Button :=
| PreviewButton
| GeneratePdfButton (disabled : bool)
| OpenButton (title : string)
| RevealButton.

Definition is_generating (v : ViewState) (deliverable : TaskDeliverable) : bool :=
  match generatingPdfId v with
  | Some i => String.eqb i (id deliverable)
  | None => false
  end.

Definition buttons (v : ViewState) (deliverable : TaskDeliverable) : list Button :=
  ((if String.eqb (deliverable_type deliverable) "file"
       && test_html_ext (or_default (path deliverable) "")
    then [PreviewButton; GeneratePdfButton (is_generating v deliverable)]
    else []) ++
   (if negb (no_path deliverable)
    then [OpenButton (if String.eqb (deliverable_type deliverable) "url"
                      then "Open URL" else "Open in browser")]
    else []) ++
   (if String.eqb (deliverable_type deliverable) "file" && negb (no_path deliverable)
    then [RevealButton]
    else []))%list.

(** What the component shows (lines 140-157). *)
Inductive Screen :=
| LoadingText
| NoDeliverablesYet
| Rows (rows : list TaskDeliverable).

Definition screen (v : ViewState) : Screen :=
  if loading v then LoadingText
  else match deliverables v with
       | [] => NoDeliverablesYet
       | ds => Rows ds
       end.

(** [res.ok]: the status is in the range 200-299. *)
Definition res_ok (status : nat) : bool := ((200 <=? status) && (status <=? 299))%nat.

(** What the component reads from a response of the route: its [ok] flag
    and the [error] field of its JSON body. *)
Definition pdf_result_of (r : Response) : PdfResult :=
  match r with
  | Json (ErrorBody error) status => PdfResponded (res_ok status) (Some error)
  | Json (SuccessBody _ _) status => PdfResponded (res_ok status) None
  end.

End Component.

(** * Properties *)

(** ** Strings *)

Lemma startsWith_spec (s p : string) :
  startsWith s p = true <-> exists rest, s = p ++ rest.
Proof.
  revert s. induction p as [|b p IH]; intros s; simpl.
  - split; [intros _; exists s; reflexivity | reflexivity].
  - destruct s as [|a s].
    + split; [discriminate | intros [rest H]; discriminate].
    + rewrite andb_true_iff, Ascii.eqb_eq, IH. split.
      * intros [-> [rest ->]]. exists rest. reflexivity.
      * intros [rest H]. injection H as -> ->. split; [reflexivity | exists rest; reflexivity].
Qed.

Lemma append_assoc (a b c : string) : (a ++ b) ++ c = a ++ (b ++ c).
Proof. induction a as [|x a IH]; simpl; [reflexivity | now rewrite IH]. Qed.

Lemma matches_ci_length (s lit : string) :
  matches_ci s lit = true -> String.length s = String.length lit.
Proof.
  revert lit. induction s as [|a s IH]; intros [|b lit]; simpl; try discriminate; auto.
  rewrite andb_true_iff. intros [_ H]. f_equal. auto.
Qed.

Lemma html_ext_here_length (s : string) :
  html_ext_here s = true -> String.length s = 5 \/ String.length s = 4.
Proof.
  unfold html_ext_here. rewrite orb_true_iff.
  intros [H|H]; apply matches_ci_length in H; auto.
Qed.

Lemma append_length (a b : string) :
  String.length (a ++ b) = String.length a + String.length b.
Proof. induction a as [|x a IH]; simpl; [reflexivity | now rewrite IH]. Qed.

(** The pattern cannot match one character before one of its matches:
    the dot of the later match would have to be an [h]. *)
Lemma html_ext_here_not_before (c : ascii) (base ext : string) :
  html_ext_here ext = true -> html_ext_here (String c (base ++ ext)) = false.
Proof.
  intros H. destruct (html_ext_here (String c (base ++ ext))) eqn:E; [|reflexivity].
  exfalso.
  pose proof (html_ext_here_length _ H) as L.
  pose proof (html_ext_here_length _ E) as L'.
  simpl in L'. rewrite append_length in L'.
  assert (base = "" /\ String.length ext = 4) as [-> L4].
  { destruct base; simpl in L'; [split; [reflexivity | lia] | lia]. }
  simpl in E. clear L L'.
  destruct ext as [|a ext]; [discriminate|].
  unfold html_ext_here in H, E.
  assert (Ha : Ascii.eqb (canonicalize a) (canonicalize ".") = true).
  { apply orb_true_iff in H. destruct H as [H|H]; simpl in H;
      apply andb_true_iff in H; tauto. }
  assert (Hb : Ascii.eqb (canonicalize a) (canonicalize "h") = true).
  { apply orb_true_iff in E. destruct E as [E|E].
    - simpl in E. apply andb_true_iff in E. destruct E as [_ E].
      apply andb_true_iff in E. tauto.
    - apply matches_ci_length in E. simpl in E, L4. lia. }
  apply Ascii.eqb_eq in Ha, Hb. rewrite Ha in Hb. vm_compute in Hb. discriminate.
Qed.

Lemma replace_html_ext_eq (s r : string) :
  replace_html_ext s r =
  if html_ext_here s then r
  else match s with
       | EmptyString => EmptyString
       | String c s' => String c (replace_html_ext s' r)
       end.
Proof. destruct s; reflexivity. Qed.

Lemma test_html_ext_eq (s : string) :
  test_html_ext s =
  html_ext_here s || match s with
                     | EmptyString => false
                     | String _ s' => test_html_ext s'
                     end.
Proof. destruct s; reflexivity. Qed.

(** Replacing the extension of [base ++ ext] touches [ext] only. *)
Lemma replace_html_ext_suffix (base ext r : string) :
  html_ext_here ext = true -> replace_html_ext (base ++ ext) r = base ++ r.
Proof.
  intros H. induction base as [|c base IH].
  - simpl. rewrite replace_html_ext_eq, H. reflexivity.
  - change (String c base ++ ext) with (String c (base ++ ext)).
    rewrite replace_html_ext_eq, (html_ext_here_not_before c base ext H), IH.
    reflexivity.
Qed.

(** A string the pattern does not match is left alone. *)
Lemma replace_html_ext_no_match (s r : string) :
  test_html_ext s = false -> replace_html_ext s r = s.
Proof.
  induction s as [|c s IH].
  - reflexivity.
  - rewrite test_html_ext_eq, replace_html_ext_eq, orb_false_iff.
    intros [-> H]. now rewrite IH.
Qed.

(** [test] says whether some suffix is an HTML extension. *)
Lemma test_html_ext_spec (s : string) :
  test_html_ext s = true <-> exists base ext, s = base ++ ext /\ html_ext_here ext = true.
Proof.
  induction s as [|c s IH].
  - split; [discriminate|].
    intros (base & ext & E & H). destruct base; simpl in E; [subst ext; exact H | discriminate].
  - rewrite test_html_ext_eq, orb_true_iff, IH. split.
    + intros [H | (base & ext & -> & H)].
      * exists "", (String c s). auto.
      * exists (String c base), ext. auto.
    + intros (base & ext & E & H). destruct base as [|b base]; simpl in E.
      * subst ext. left. exact H.
      * injection E as -> ->. right. exists base, ext. auto.
Qed.

(** ** The sandbox check *)

Lemma allowed_spec (pf : Platform) (roots : list string) (resolvedSource : string) :
  allowed pf roots resolvedSource = true <->
  exists root, In root roots /\
    (resolvedSource = root \/ exists rest, resolvedSource = root ++ sep pf ++ rest).
Proof.
  unfold allowed. rewrite existsb_exists. split.
  - intros (root & Hin & H). exists root. split; [exact Hin|].
    apply orb_true_iff in H. destruct H as [H|H].
    + left. now apply String.eqb_eq.
    + right. apply startsWith_spec in H. destruct H as [rest ->].
      exists rest. apply append_assoc.
  - intros (root & Hin & H). exists root. split; [exact Hin|].
    apply orb_true_iff. destruct H as [->|[rest ->]].
    + left. apply String.eqb_refl.
    + right. apply startsWith_spec. exists rest. symmetry. apply append_assoc.
Qed.

Lemma resolve_all_In (fs : FS) (l roots : list string) :
  resolve_all fs l = Some roots ->
  forall r, In r roots <-> exists r0, In r0 l /\ realpathSync fs r0 = Some r.
Proof.
  revert roots. induction l as [|x l IH]; simpl; intros roots H r.
  - injection H as <-. simpl. split; [tauto | intros (r0 & [] & _)].
  - destruct (realpathSync fs x) as [rx|] eqn:Ex; [|discriminate].
    destruct (resolve_all fs l) as [rs|]; [|discriminate].
    injection H as <-. simpl. rewrite (IH rs eq_refl r). split.
    + intros [<- | (r0 & Hin & Hr)]; [exists x; auto | exists r0; auto].
    + intros (r0 & [<- | Hin] & Hr); [left; congruence | right; exists r0; auto].
Qed.

(** Every existing configured root resolves exactly when the effective
    allow-list can be computed. *)
Lemma resolve_all_total (fs : FS) (l : list string) :
  (forall r0, In r0 l -> realpathSync fs r0 <> None) ->
  exists roots, resolve_all fs l = Some roots.
Proof.
  induction l as [|x l IH]; simpl; intros H.
  - eauto.
  - destruct (realpathSync fs x) eqn:Ex; [|exfalso; apply (H x); auto].
    destruct IH as [rs ->]; [intros; apply H; auto | eauto].
Qed.

Lemma canonical_roots_In (env : Env) (fs : FS) (roots : list string) :
  canonical_roots env fs = Some roots ->
  forall r, In r roots <->
    exists r0, In r0 (getAllowedRoots env) /\ existsSync fs r0 = true
               /\ realpathSync fs r0 = Some r.
Proof.
  intros H r. rewrite (resolve_all_In _ _ _ H r). split.
  - intros (r0 & Hin & Hr). apply filter_In in Hin. exists r0. tauto.
  - intros (r0 & Hin & He & Hr). exists r0. split; [apply filter_In; auto | exact Hr].
Qed.

(** ** Running the handler *)

Lemma map_realpath_run (fs : FS) (l : list string) (s : State) :
  map_realpath fs l s =
  (match resolve_all fs l with Some rs => Returned rs | None => Thrown end, s).
Proof.
  induction l as [|x l IH]; simpl.
  - reflexivity.
  - unfold bind, realpath_or_throw. destruct (realpathSync fs x); simpl.
    + rewrite IH. destruct (resolve_all fs l); reflexivity.
    + reflexivity.
Qed.

Lemma effective_roots_run (env : Env) (fs : FS) (s : State) :
  effective_roots env fs s =
  (match canonical_roots env fs with Some rs => Returned rs | None => Thrown end, s).
Proof. apply map_realpath_run. Qed.

(** A request that passes the gates is decided by the sandbox check. *)
Lemma POST_at_sandbox pf env fs o taskId deliverableId s d resolvedSource :
  ReachesSandbox pf env fs o taskId deliverableId s d resolvedSource ->
  POST pf env fs o taskId deliverableId s =
  match canonical_roots env fs with
  | None => (Thrown, s)
  | Some roots =>
      if allowed pf roots resolvedSource
      then generate o taskId d resolvedSource (pdfPath_of pf env d) s
      else (Returned outside_allowed, s)
  end.
Proof.
  intros [Hget Hfound Hpath Htype Hhtml Hex Hreal].
  unfold POST, bind, sql_get. rewrite Hget, Hfound, Hpath, Htype, Hhtml. simpl.
  unfold sourcePath_of in Hex, Hreal. rewrite Hex, Hreal. simpl.
  rewrite effective_roots_run.
  destruct (canonical_roots env fs) as [roots|]; [|reflexivity].
  destruct (allowed pf roots resolvedSource); reflexivity.
Qed.

Lemma POST_cleared pf env fs o taskId deliverableId s d resolvedSource :
  Cleared pf env fs o taskId deliverableId s d resolvedSource ->
  POST pf env fs o taskId deliverableId s =
  generate o taskId d resolvedSource (pdfPath_of pf env d) s.
Proof.
  intros [Hg (roots & Hroots & Hallowed)].
  rewrite (POST_at_sandbox _ _ _ _ _ _ _ _ _ Hg), Hroots, Hallowed. reflexivity.
Qed.

Lemma render_returns (o : Oracle) (resolvedSource pdfPath : string) (s : State) :
  render_ok o = true ->
  render o resolvedSource pdfPath s = (Returned tt, rendered s resolvedSource pdfPath).
Proof.
  unfold render_ok. rewrite !andb_true_iff. intros [[[[H1 H2] H3] H4] H5].
  unfold render, bind, call, rendered. rewrite H1, H2, H3, H4, H5. simpl.
  rewrite <- !app_assoc. reflexivity.
Qed.

(** A render that throws leaves the table alone and the engine calls it
    made in the log. *)
Lemma render_throws (o : Oracle) (resolvedSource pdfPath : string) (s : State) :
  render_ok o = false ->
  exists l, render o resolvedSource pdfPath s =
            (Thrown, {| db := db s; log := (log s ++ l)%list |}).
Proof.
  unfold render_ok, render, bind, call.
  destruct (launch_ok o), (newPage_ok o), (goto_ok o), (pdf_ok o), (close_ok o);
    simpl; try discriminate; intros _; rewrite <- ?app_assoc; simpl; eauto.
Qed.

Lemma find_app_fresh {A} (f : A -> bool) (l : list A) (x : A) :
  existsb f l = false -> f x = true -> find f (l ++ [x]) = Some x.
Proof.
  induction l as [|y l IH]; simpl; intros H Hx.
  - now rewrite Hx.
  - apply orb_false_iff in H. destruct H as [-> H]. auto.
Qed.

Lemma find_none_existsb {A} (f : A -> bool) (l : list A) :
  find f l = None <-> existsb f l = false.
Proof.
  induction l as [|y l IH]; simpl; [tauto|].
  destruct (f y); simpl; [split; discriminate | exact IH].
Qed.

(** The find-or-insert, case by case. *)
Lemma publish_run (o : Oracle) (taskId : string) (d : TaskDeliverable) (pdfPath : string)
  (s : State) :
  publish o taskId d pdfPath s =
  if find_pdf_ok o then
    match Db.select_file_at (db s) taskId pdfPath with
    | Some e => (Returned (Some e), s)
    | None =>
        let r := pdf_record (randomUUID o) taskId d pdfPath in
        if insert_ok o && negb (existsb (fun x => String.eqb (id x) (id r)) (db s)) then
          if reread_ok o then
            (if broadcast_ok o then Returned (Some r) else Thrown,
             {| db := (db s ++ [r])%list;
                log := (log s ++ [Called (BroadcastAdded (Some r)) (broadcast_ok o)])%list |})
          else (Thrown, {| db := (db s ++ [r])%list; log := log s |})
        else (Thrown, s)
    end
  else (Thrown, s).
Proof.
  unfold publish, bind, sql_get, sql_insert, call, Db.insert.
  destruct (find_pdf_ok o); [|reflexivity].
  destruct (Db.select_file_at (db s) taskId pdfPath); [reflexivity|]. simpl.
  destruct (insert_ok o); [|reflexivity]. simpl.
  destruct (existsb _ (db s)) eqn:E; [reflexivity|]. simpl.
  destruct (reread_ok o); [|reflexivity]. simpl.
  unfold Db.select_id.
  rewrite (find_app_fresh _ _ _ E) by apply String.eqb_refl.
  destruct (broadcast_ok o); reflexivity.
Qed.

(** The [try] block never lets an exception out, and what it answers is
    a success or the one failure response. *)
Lemma generate_run (o : Oracle) (taskId : string) (d : TaskDeliverable)
  (resolvedSource pdfPath : string) (s : State) :
  generate o taskId d resolvedSource pdfPath s =
  match render o resolvedSource pdfPath s with
  | (Returned _, s1) =>
      match publish o taskId d pdfPath s1 with
      | (Returned c, s2) => (Returned (Json (SuccessBody pdfPath c) 200), s2)
      | (Thrown, s2) =>
          (Returned generation_failed,
           {| db := db s2; log := (log s2 ++ [Called ConsoleError true])%list |})
      end
  | (Thrown, s1) =>
      (Returned generation_failed,
       {| db := db s1; log := (log s1 ++ [Called ConsoleError true])%list |})
  end.
Proof.
  unfold generate, try_catch, bind.
  destruct (render o resolvedSource pdfPath s) as [[[]|] s1]; [|reflexivity].
  destruct (publish o taskId d pdfPath s1) as [[c|] s2]; reflexivity.
Qed.

(** What [generate] answers: the failure response or a success. *)
Lemma generate_response (o : Oracle) (taskId : string) (d : TaskDeliverable)
  (resolvedSource pdfPath : string) (s : State) :
  fst (generate o taskId d resolvedSource pdfPath s) = Returned generation_failed \/
  exists c, fst (generate o taskId d resolvedSource pdfPath s)
            = Returned (Json (SuccessBody pdfPath c) 200).
Proof.
  rewrite generate_run.
  destruct (render o resolvedSource pdfPath s) as [[[]|] s1]; [|left; reflexivity].
  destruct (publish o taskId d pdfPath s1) as [[c|] s2];
    [right; exists c; reflexivity | left; reflexivity].
Qed.

(** [generate] leaves the table alone or adds the one record for the PDF,
    and it adds it only when no row carries the dedup key. *)
Lemma generate_db (o : Oracle) (taskId : string) (d : TaskDeliverable)
  (resolvedSource pdfPath : string) (s : State) :
  db (snd (generate o taskId d resolvedSource pdfPath s)) = db s \/
  (Db.select_file_at (db s) taskId pdfPath = None /\
   db (snd (generate o taskId d resolvedSource pdfPath s))
   = (db s ++ [pdf_record (randomUUID o) taskId d pdfPath])%list).
Proof.
  rewrite generate_run.
  destruct (render_ok o) eqn:R.
  - rewrite (render_returns _ _ _ _ R), publish_run. simpl.
    destruct (find_pdf_ok o); [|left; reflexivity].
    destruct (Db.select_file_at (db s) taskId pdfPath); [left; reflexivity|].
    destruct (insert_ok o && _); [|left; reflexivity].
    destruct (reread_ok o); [destruct (broadcast_ok o)|]; right; auto.
  - destruct (render_throws o resolvedSource pdfPath s R) as [l ->]. left. reflexivity.
Qed.

(** The same for a whole request, whatever it is. *)
Lemma POST_db pf env fs o taskId deliverableId s :
  db (snd (POST pf env fs o taskId deliverableId s)) = db s \/
  exists d,
    Db.select_deliverable (db s) deliverableId taskId = Some d /\
    Db.select_file_at (db s) taskId (pdfPath_of pf env d) = None /\
    db (snd (POST pf env fs o taskId deliverableId s))
    = (db s ++ [pdf_record (randomUUID o) taskId d (pdfPath_of pf env d)])%list.
Proof.
  unfold POST, bind, sql_get.
  destruct (get_deliverable_ok o); [|left; reflexivity].
  destruct (Db.select_deliverable (db s) deliverableId taskId) as [d|] eqn:F;
    [|left; reflexivity].
  destruct (no_path d || _); [left; reflexivity|].
  destruct (negb (test_html_ext _)); [left; reflexivity|].
  destruct (negb (existsSync fs _)); [left; reflexivity|].
  destruct (realpathSync fs _) as [rs|]; [|left; reflexivity].
  rewrite effective_roots_run.
  destruct (canonical_roots env fs) as [roots|]; [|left; reflexivity].
  destruct (negb (allowed pf roots rs)); [left; reflexivity|].
  destruct (generate_db o taskId d rs
              (replace_html_ext (normalize pf (expandHome env (path_text d))) ".pdf") s)
    as [H|[H1 H2]]; [left; exact H | right; exists d; auto].
Qed.

(** ** The sandbox check (C1) *)

Lemma allowed_Contained pf env fs roots resolvedSource :
  canonical_roots env fs = Some roots ->
  allowed pf roots resolvedSource = true <-> Contained pf env fs resolvedSource.
Proof.
  intros H. rewrite allowed_spec. unfold Contained. split.
  - intros (root & Hin & Hc). apply (canonical_roots_In _ _ _ H) in Hin.
    destruct Hin as (r0 & H1 & H2 & H3). exists r0, root. auto.
  - intros (r0 & root & H1 & H2 & H3 & Hc). exists root. split; [|exact Hc].
    apply (canonical_roots_In _ _ _ H). exists r0. auto.
Qed.

(** C1.  A request that reaches the sandbox check, in a file system where
    every existing configured root can be resolved, is answered 403
    Forbidden exactly when the resolved source path is not contained: it
    neither equals the canonical form of an existing configured root nor
    starts with one followed by the separator.  A contained path goes on to
    the render.  The decision looks at the resolved path only, so a source
    whose text lies under a root and whose target lies outside every root
    is refused; a resolved path equal to a root is let through; and when no
    configured root exists every path is refused. *)
Theorem sandbox_accepts_iff_contained pf env fs o taskId deliverableId s d resolvedSource :
  ReachesSandbox pf env fs o taskId deliverableId s d resolvedSource ->
  (forall r0, In r0 (getAllowedRoots env) -> existsSync fs r0 = true ->
              realpathSync fs r0 <> None) ->
  (fst (POST pf env fs o taskId deliverableId s) = Returned outside_allowed
   <-> ~ Contained pf env fs resolvedSource) /\
  (Contained pf env fs resolvedSource ->
   POST pf env fs o taskId deliverableId s
   = generate o taskId d resolvedSource (pdfPath_of pf env d) s) /\
  (~ Contained pf env fs resolvedSource ->
   POST pf env fs o taskId deliverableId s = (Returned outside_allowed, s)) /\
  (forall root rest,
     sourcePath_of pf env d = root ++ sep pf ++ rest ->
     ~ Contained pf env fs resolvedSource ->
     POST pf env fs o taskId deliverableId s = (Returned outside_allowed, s)) /\
  (forall r0, In r0 (getAllowedRoots env) -> existsSync fs r0 = true ->
              realpathSync fs r0 = Some resolvedSource ->
              POST pf env fs o taskId deliverableId s
              = generate o taskId d resolvedSource (pdfPath_of pf env d) s) /\
  ((forall r0, In r0 (getAllowedRoots env) -> existsSync fs r0 = false) ->
   POST pf env fs o taskId deliverableId s = (Returned outside_allowed, s)).
Proof.
  intros Hg Hres.
  destruct (resolve_all_total fs (filter (existsSync fs) (getAllowedRoots env)))
    as [roots Hroots].
  { intros r0 Hin. apply filter_In in Hin. apply Hres; tauto. }
  fold (canonical_roots env fs) in Hroots.
  pose proof (allowed_Contained pf env fs roots resolvedSource Hroots) as HC.
  pose proof (POST_at_sandbox _ _ _ _ _ _ _ _ _ Hg) as HP. rewrite Hroots in HP.
  assert (Hyes : Contained pf env fs resolvedSource ->
                 POST pf env fs o taskId deliverableId s
                 = generate o taskId d resolvedSource (pdfPath_of pf env d) s).
  { intros C. apply HC in C. rewrite HP, C. reflexivity. }
  assert (Hno : ~ Contained pf env fs resolvedSource ->
                POST pf env fs o taskId deliverableId s = (Returned outside_allowed, s)).
  { intros C. rewrite HP. destruct (allowed pf roots resolvedSource); [|reflexivity].
    exfalso. apply C, HC. reflexivity. }
  repeat split.
  - intros H C. rewrite (Hyes C) in H.
    destruct (generate_response o taskId d resolvedSource (pdfPath_of pf env d) s)
      as [E|[c E]]; rewrite E in H; discriminate.
  - intros C. rewrite (Hno C). reflexivity.
  - exact Hyes.
  - exact Hno.
  - intros root rest _ C. exact (Hno C).
  - intros r0 H1 H2 H3. apply Hyes. exists r0, resolvedSource. auto.
  - intros Hnone. apply Hno. intros (r0 & root & H1 & H2 & _).
    rewrite (Hnone r0 H1) in H2. discriminate.
Qed.

(** A symlink inside the root whose target is outside: refused. *)
Lemma sandbox_accepts_iff_contained_witness :
  POST Posix.platform Scenario.env Scenario.fs (Scenario.all_ok "u1") "task-1" "d-4"
    Scenario.store
  = (Returned outside_allowed, Scenario.store).
Proof.
  refine (proj1 (proj2 (proj2 (proj2
            (sandbox_accepts_iff_contained Posix.platform Scenario.env Scenario.fs
               (Scenario.all_ok "u1") "task-1" "d-4" Scenario.store Scenario.leak
               "/etc/secret.html" _ _))))
            "/srv/shared" "leak.html" eq_refl _).
  - constructor; reflexivity.
  - intros r0 [<-|[<-|[]]]; vm_compute; discriminate.
  - intros (r0 & root & [<-|[<-|[]]] & He & Hr & Hc); vm_compute in He, Hr;
      try discriminate.
    injection Hr as <-. destruct Hc as [Hc|[rest Hc]]; discriminate.
Defined.

(** A contained source is let through and rendered. *)
Example report_is_rendered :
  fst (POST Posix.platform Scenario.env Scenario.fs (Scenario.all_ok "u1") "task-1" "d-1"
         Scenario.store)
  = Returned (Json (SuccessBody "/srv/shared/out/report.pdf"
                      (Some (pdf_record "u1" "task-1" Scenario.report
                               "/srv/shared/out/report.pdf"))) 200).
Proof. reflexivity. Qed.

(** ** Home expansion (C2) *)

(** C2, as the specification states it, fails: with no home directory
    configured the leading tilde does not stay, it is removed. *)
Lemma expandHome_without_home_changes_path :
  HOME Scenario.no_home = None /\
  startsWith "~/Documents/report.html" "~" = true /\
  expandHome Scenario.no_home "~/Documents/report.html" = "/Documents/report.html" /\
  expandHome Scenario.no_home "~/Documents/report.html" <> "~/Documents/report.html".
Proof. repeat split. discriminate. Qed.

(** C2, amended.  When no home directory is configured (HOME unset or
    empty) a leading tilde is replaced by the empty string: the expansion
    of [~rest] is [rest].  Whatever HOME is, a path that does not begin
    with a tilde is returned as it is. *)
Theorem expandHome_without_home_drops_tilde (env : Env) :
  (HOME env = None \/ HOME env = Some "" ->
   forall rest, expandHome env (String "~" rest) = rest) /\
  (forall p, startsWith p "~" = false -> expandHome env p = p).
Proof.
  split.
  - intros H rest. unfold expandHome.
    assert (E : or_default (HOME env) "" = "") by (destruct H as [-> | ->]; reflexivity).
    rewrite E. reflexivity.
  - intros p H. unfold expandHome, replace_leading_tilde.
    destruct p as [|c p]; [reflexivity|].
    simpl in H. rewrite andb_true_r in H. rewrite H. reflexivity.
Qed.

Lemma expandHome_without_home_drops_tilde_witness :
  expandHome Scenario.no_home "~/Documents/report.html" = "/Documents/report.html" /\
  expandHome Scenario.env "/srv/shared/out/report.html" = "/srv/shared/out/report.html".
Proof.
  split.
  - apply (proj1 (expandHome_without_home_drops_tilde Scenario.no_home)).
    left. reflexivity.
  - apply (proj2 (expandHome_without_home_drops_tilde Scenario.env)). reflexivity.
Defined.

(** With a home directory configured the tilde is expanded. *)
Example expandHome_with_home :
  expandHome Scenario.env "~/Documents/report.html" = "/home/op/Documents/report.html".
Proof. reflexivity. Qed.

(** ** Rejection before the engine (C7) *)

(** C7.  A deliverable that is found and whose path is absent or empty,
    whose type is not [file], or whose path does not match the
    case-insensitive [.htm]/[.html] pattern, is answered with a 400
    response, and the state is what it was: no call of the engine (or of
    anything else) is logged and the table is untouched. *)
Theorem non_html_rejected_before_launch pf env fs o taskId deliverableId s d :
  get_deliverable_ok o = true ->
  Db.select_deliverable (db s) deliverableId taskId = Some d ->
  path d = None \/ path d = Some "" \/ deliverable_type d <> "file"
  \/ test_html_ext (path_text d) = false ->
  (POST pf env fs o taskId deliverableId s = (Returned not_a_file_path, s) \/
   POST pf env fs o taskId deliverableId s = (Returned html_only, s)) /\
  launches (log (snd (POST pf env fs o taskId deliverableId s))) = launches (log s).
Proof.
  intros Hget Hfound H.
  assert (E : POST pf env fs o taskId deliverableId s = (Returned not_a_file_path, s) \/
              POST pf env fs o taskId deliverableId s = (Returned html_only, s)).
  { unfold POST, bind, sql_get. rewrite Hget, Hfound.
    destruct (no_path d || negb (String.eqb (deliverable_type d) "file")) eqn:E1;
      [left; reflexivity|].
    apply orb_false_iff in E1. destruct E1 as [Hp Ht].
    apply negb_false_iff, String.eqb_eq in Ht.
    destruct H as [H|[H|[H|H]]].
    - unfold no_path, path_text in Hp. rewrite H in Hp. discriminate.
    - unfold no_path, path_text in Hp. rewrite H in Hp. discriminate.
    - contradiction.
    - rewrite H. right. reflexivity. }
  split; [exact E|]. destruct E as [-> | ->]; reflexivity.
Qed.

Lemma non_html_rejected_before_launch_witness :
  (POST Posix.platform Scenario.env Scenario.fs (Scenario.all_ok "u1") "task-1" "d-5"
     Scenario.store = (Returned not_a_file_path, Scenario.store) \/
   POST Posix.platform Scenario.env Scenario.fs (Scenario.all_ok "u1") "task-1" "d-5"
     Scenario.store = (Returned html_only, Scenario.store)) /\
  launches (log (snd (POST Posix.platform Scenario.env Scenario.fs (Scenario.all_ok "u1")
                        "task-1" "d-5" Scenario.store)))
  = launches (log Scenario.store).
Proof.
  apply (non_html_rejected_before_launch Posix.platform Scenario.env Scenario.fs
           (Scenario.all_ok "u1") "task-1" "d-5" Scenario.store Scenario.notes).
  - reflexivity.
  - reflexivity.
  - right. right. right. reflexivity.
Defined.

(** ** The title of the inserted record (C9) *)

(** C9.  Whatever row a request adds to the table is the PDF record of the
    deliverable it was asked about, and the title of that record is the
    source title with a trailing [.htm]/[.html] (in any case) removed and
    [.pdf] appended; a title the pattern does not match is kept whole in
    front of [.pdf].  So [Report.html] gives [Report.pdf] and [Notes] gives
    [Notes.pdf]. *)
Theorem pdf_title_strips_html_extension :
  (forall pf env fs o taskId deliverableId s r,
     db (snd (POST pf env fs o taskId deliverableId s)) = (db s ++ [r])%list ->
     exists d, Db.select_deliverable (db s) deliverableId taskId = Some d /\
               title r = replace_html_ext (title d) "" ++ ".pdf") /\
  (forall base ext, html_ext_here ext = true ->
                    replace_html_ext (base ++ ext) "" ++ ".pdf" = base ++ ".pdf") /\
  (forall t, test_html_ext t = false -> replace_html_ext t "" ++ ".pdf" = t ++ ".pdf") /\
  (forall newId taskId d pdfPath,
     title d = "Report.html" -> title (pdf_record newId taskId d pdfPath) = "Report.pdf") /\
  (forall newId taskId d pdfPath,
     title d = "Notes" -> title (pdf_record newId taskId d pdfPath) = "Notes.pdf").
Proof.
  repeat split.
  - intros pf env fs o taskId deliverableId s r H.
    destruct (POST_db pf env fs o taskId deliverableId s) as [E|(d & Hd & _ & E)].
    + rewrite E in H. apply (f_equal (@List.length _)) in H.
      rewrite length_app in H. simpl in H. lia.
    + exists d. split; [exact Hd|]. rewrite E in H.
      apply app_inv_head in H. injection H as <-. reflexivity.
  - intros base ext H. rewrite (replace_html_ext_suffix base ext "" H).
    f_equal. induction base as [|c base IH]; simpl; [reflexivity | now rewrite IH].
  - intros t H. now rewrite replace_html_ext_no_match.
  - intros newId taskId d pdfPath H. simpl. rewrite H. reflexivity.
  - intros newId taskId d pdfPath H. simpl. rewrite H. reflexivity.
Qed.

Lemma pdf_title_strips_html_extension_witness :
  exists d, Db.select_deliverable (db Scenario.store) "d-1" "task-1" = Some d /\
            title (pdf_record "u1" "task-1" Scenario.report "/srv/shared/out/report.pdf")
            = replace_html_ext (title d) "" ++ ".pdf".
Proof.
  apply (proj1 pdf_title_strips_html_extension Posix.platform Scenario.env Scenario.fs
           (Scenario.all_ok "u1") "task-1" "d-1" Scenario.store
           (pdf_record "u1" "task-1" Scenario.report "/srv/shared/out/report.pdf")).
  reflexivity.
Defined.

(** ** The engine process (C3) *)

Lemma running_app (n : nat) (l1 l2 : list Event) :
  running n (l1 ++ l2)%list = running (running n l1) l2.
Proof.
  revert n. induction l1 as [|[op r] l1 IH]; intros n; simpl; [reflexivity|].
  destruct op, r; apply IH.
Qed.

(** A render that goes through closes the engine it started. *)
Lemma render_closes_engine pf env fs o taskId deliverableId s d resolvedSource :
  Cleared pf env fs o taskId deliverableId s d resolvedSource ->
  render_ok o = true ->
  live_engines (log (snd (POST pf env fs o taskId deliverableId s)))
  = live_engines (log s).
Proof.
  intros C R. rewrite (POST_cleared _ _ _ _ _ _ _ _ _ C), generate_run.
  rewrite (render_returns _ _ _ _ R), publish_run. unfold live_engines.
  destruct (find_pdf_ok o);
    [destruct (Db.select_file_at _ _ _);
       [|simpl; destruct (insert_ok o && _);
           [destruct (reread_ok o); [destruct (broadcast_ok o)|]|]]|];
    simpl; rewrite ?running_app; simpl; rewrite ?running_app; reflexivity.
Qed.

(** C3, at the code: the engine is closed on the success path only.  For
    a request that reaches the render, whose launch returns and whose page
    call (opening the page, loading the file or printing) throws, the
    handler answers 500 and never calls [browser.close()]: one more
    engine process is running after the request than before it. *)
Theorem engine_survives_failed_render pf env fs o taskId deliverableId s d resolvedSource :
  Cleared pf env fs o taskId deliverableId s d resolvedSource ->
  launch_ok o = true ->
  newPage_ok o = false \/ goto_ok o = false \/ pdf_ok o = false ->
  fst (POST pf env fs o taskId deliverableId s) = Returned generation_failed /\
  live_engines (log (snd (POST pf env fs o taskId deliverableId s)))
  = S (live_engines (log s)) /\
  ~ In (Called BrowserClose true)
       (skipn (length (log s)) (log (snd (POST pf env fs o taskId deliverableId s)))).
Proof.
  intros C L F. rewrite (POST_cleared _ _ _ _ _ _ _ _ _ C), generate_run.
  unfold render, bind, call, live_engines. rewrite L. simpl.
  assert (K : forall l : list Event, skipn (length (log s)) (log s ++ l)%list = l).
  { intros l. rewrite skipn_app, skipn_all, Nat.sub_diag. reflexivity. }
  destruct (newPage_ok o); simpl;
    [destruct (goto_ok o); simpl;
       [destruct (pdf_ok o); simpl;
          [exfalso; destruct F as [F|[F|F]]; discriminate|]|]|];
    rewrite <- ?app_assoc; simpl; rewrite K, running_app; simpl;
    (split; [reflexivity | split; [reflexivity|]]);
    intros H; repeat (destruct H as [H|H]; [discriminate|]); exact H.
Qed.

Lemma engine_survives_failed_render_witness :
  fst (POST Posix.platform Scenario.env Scenario.fs (Scenario.goto_fails "u1")
         "task-1" "d-1" Scenario.store) = Returned generation_failed /\
  live_engines (log (snd (POST Posix.platform Scenario.env Scenario.fs
                            (Scenario.goto_fails "u1") "task-1" "d-1" Scenario.store)))
  = S (live_engines (log Scenario.store)) /\
  ~ In (Called BrowserClose true)
       (skipn (length (log Scenario.store))
          (log (snd (POST Posix.platform Scenario.env Scenario.fs
                       (Scenario.goto_fails "u1") "task-1" "d-1" Scenario.store)))).
Proof.
  apply (engine_survives_failed_render Posix.platform Scenario.env Scenario.fs
           (Scenario.goto_fails "u1") "task-1" "d-1" Scenario.store Scenario.report
           "/srv/shared/out/report.html").
  - split; [constructor; reflexivity|].
    exists ["/srv/shared"]. split; reflexivity.
  - reflexivity.
  - right. left. reflexivity.
Defined.

(** The log of that request: launch, page, failed navigation, console. *)
Example failed_navigation_log :
  log (snd (POST Posix.platform Scenario.env Scenario.fs (Scenario.goto_fails "u1")
              "task-1" "d-1" Scenario.store))
  = [Called ChromiumLaunch true; Called NewPage true;
     Called (PageGoto "file:///srv/shared/out/report.html") false;
     Called ConsoleError true].
Proof. reflexivity. Qed.

(** ** Exceptions inside the [try] block (C10) *)

(** C10.  For a request that passed the sandbox check, every call that
    throws inside the [try] block gives the one response 500 "Failed to
    generate PDF": an engine call (launch, new page, navigation, printing,
    close), the lookup of an existing PDF record, and, when no such record
    is stored, the insert, the re-read and the broadcast.  Up to the insert
    the table is what it was; when the re-read or the broadcast throws the
    answer is the same 500 although the new record is stored. *)
Theorem exceptions_after_sandbox_answer_500
  pf env fs o taskId deliverableId s d resolvedSource :
  Cleared pf env fs o taskId deliverableId s d resolvedSource ->
  let pdfPath := pdfPath_of pf env d in
  let out := POST pf env fs o taskId deliverableId s in
  (launch_ok o = false \/ newPage_ok o = false \/ goto_ok o = false \/
   pdf_ok o = false \/ close_ok o = false \/ find_pdf_ok o = false ->
   fst out = Returned generation_failed /\ db (snd out) = db s) /\
  (Db.select_file_at (db s) taskId pdfPath = None ->
   insert_ok o = false \/ Db.select_id (db s) (randomUUID o) <> None ->
   fst out = Returned generation_failed /\ db (snd out) = db s) /\
  (Db.select_file_at (db s) taskId pdfPath = None ->
   reread_ok o = false \/ broadcast_ok o = false ->
   fst out = Returned generation_failed) /\
  (render_ok o = true -> find_pdf_ok o = true ->
   Db.select_file_at (db s) taskId pdfPath = None ->
   insert_ok o = true -> Db.select_id (db s) (randomUUID o) = None ->
   reread_ok o = false \/ broadcast_ok o = false ->
   fst out = Returned generation_failed /\
   db (snd out) = (db s ++ [pdf_record (randomUUID o) taskId d pdfPath])%list) /\
  (exists response, fst out = Returned response).
Proof.
  intros C pdfPath out. subst out.
  rewrite (POST_cleared _ _ _ _ _ _ _ _ _ C). fold pdfPath.
  rewrite generate_run.
  destruct (render_ok o) eqn:R.
  - rewrite (render_returns _ _ _ _ R), publish_run. simpl.
    unfold render_ok in R. rewrite !andb_true_iff in R.
    destruct R as [[[[R1 R2] R3] R4] R5].
    split; [|split; [|split; [|split]]].
    + intros [H|[H|[H|[H|[H|H]]]]]; try congruence. rewrite H. split; reflexivity.
    + intros N [H|H]; rewrite N; destruct (find_pdf_ok o); try (split; reflexivity).
      * rewrite H. split; reflexivity.
      * unfold Db.select_id in H. rewrite find_none_existsb in H.
        apply not_false_is_true in H. simpl. rewrite H, andb_false_r. split; reflexivity.
    + intros N H. rewrite N. destruct (find_pdf_ok o); [|reflexivity].
      destruct (insert_ok o && _); [|reflexivity].
      destruct H as [H|H]; rewrite H; [reflexivity|].
      destruct (reread_ok o); reflexivity.
    + intros _ Hf N Hi Hid H. rewrite Hf, N, Hi.
      unfold Db.select_id in Hid. rewrite find_none_existsb in Hid. simpl. rewrite Hid.
      simpl. destruct H as [H|H]; rewrite H; [split; reflexivity|].
      destruct (reread_ok o); split; reflexivity.
    + destruct (find_pdf_ok o); [|eexists; reflexivity].
      destruct (Db.select_file_at _ _ _); [eexists; reflexivity|].
      destruct (insert_ok o && _); [|eexists; reflexivity].
      destruct (reread_ok o); [destruct (broadcast_ok o)|]; eexists; reflexivity.
  - destruct (render_throws o resolvedSource pdfPath s R) as [l ->]. simpl.
    split; [|split; [|split; [|split]]]; try discriminate; eauto.
Qed.

Lemma exceptions_after_sandbox_answer_500_witness :
  fst (POST Posix.platform Scenario.env Scenario.fs (Scenario.broadcast_fails "u1")
         "task-1" "d-1" Scenario.store) = Returned generation_failed /\
  db (snd (POST Posix.platform Scenario.env Scenario.fs (Scenario.broadcast_fails "u1")
             "task-1" "d-1" Scenario.store))
  = (db Scenario.store
     ++ [pdf_record "u1" "task-1" Scenario.report "/srv/shared/out/report.pdf"])%list.
Proof.
  refine (proj1 (proj2 (proj2 (proj2
            (exceptions_after_sandbox_answer_500 Posix.platform Scenario.env Scenario.fs
               (Scenario.broadcast_fails "u1") "task-1" "d-1" Scenario.store
               Scenario.report "/srv/shared/out/report.html" _))))
            eq_refl eq_refl eq_refl eq_refl eq_refl (or_intror eq_refl)).
  split; [constructor; reflexivity|].
  exists ["/srv/shared"]. split; reflexivity.
Defined.

(** ** The produced path (C4) *)

(** C4, as the specification states it, fails.  The source
    [/outside/link.html] is a symlink to a report inside the root, so the
    check on the resolved source passes; the PDF path is derived from the
    unresolved text and is [/outside/link.pdf], which resolves to itself
    and is not contained; it is published all the same. *)
Lemma pdf_path_outside_roots_is_published :
  POST Posix.platform Scenario.env Scenario.fs (Scenario.all_ok "u1") "task-1" "d-3"
    Scenario.store
  = (Returned (Json (SuccessBody "/outside/link.pdf"
                       (Some (pdf_record "u1" "task-1" Scenario.outside_link
                                "/outside/link.pdf"))) 200),
     {| db := (db Scenario.store
               ++ [pdf_record "u1" "task-1" Scenario.outside_link "/outside/link.pdf"])%list;
        log := [Called ChromiumLaunch true; Called NewPage true;
                Called (PageGoto "file:///srv/shared/out/report.html") true;
                Called (PagePdf "/outside/link.pdf") true;
                Called BrowserClose true;
                Called (BroadcastAdded
                          (Some (pdf_record "u1" "task-1" Scenario.outside_link
                                   "/outside/link.pdf"))) true] |}) /\
  canonical_roots Scenario.env Scenario.fs = Some ["/srv/shared"] /\
  realpathSync Scenario.fs "/outside/link.pdf" = Some "/outside/link.pdf" /\
  allowed Posix.platform ["/srv/shared"] "/outside/link.pdf" = false /\
  ~ Contained Posix.platform Scenario.env Scenario.fs "/outside/link.pdf".
Proof.
  repeat split.
  intros C. apply (allowed_Contained Posix.platform Scenario.env Scenario.fs
                     ["/srv/shared"] "/outside/link.pdf" eq_refl) in C.
  discriminate.
Qed.

(** C4, amended.  Only the source is checked.  For a request that passed
    the gates and the sandbox check on the resolved source, and whose
    render goes through, the path handed to the find-or-insert is the
    normalized, unresolved source path with its HTML extension replaced by
    [.pdf]; nothing about that path is checked before the publish step
    runs on it. *)
Theorem pdf_path_published_without_recheck
  pf env fs o taskId deliverableId s d resolvedSource :
  Cleared pf env fs o taskId deliverableId s d resolvedSource ->
  render_ok o = true ->
  let pdfPath := replace_html_ext (normalize pf (expandHome env (path_text d))) ".pdf" in
  POST pf env fs o taskId deliverableId s =
  match publish o taskId d pdfPath (rendered s resolvedSource pdfPath) with
  | (Returned created, s') => (Returned (Json (SuccessBody pdfPath created) 200), s')
  | (Thrown, s') =>
      (Returned generation_failed,
       {| db := db s'; log := (log s' ++ [Called ConsoleError true])%list |})
  end.
Proof.
  intros C R pdfPath.
  rewrite (POST_cleared _ _ _ _ _ _ _ _ _ C), generate_run.
  fold (sourcePath_of pf env d) in pdfPath. fold (pdfPath_of pf env d) in pdfPath.
  fold pdfPath. rewrite (render_returns _ _ _ _ R). reflexivity.
Qed.

Lemma pdf_path_published_without_recheck_witness :
  POST Posix.platform Scenario.env Scenario.fs (Scenario.all_ok "u1") "task-1" "d-3"
    Scenario.store =
  match publish (Scenario.all_ok "u1") "task-1" Scenario.outside_link "/outside/link.pdf"
          (rendered Scenario.store "/srv/shared/out/report.html" "/outside/link.pdf") with
  | (Returned created, s') =>
      (Returned (Json (SuccessBody "/outside/link.pdf" created) 200), s')
  | (Thrown, s') =>
      (Returned generation_failed,
       {| db := db s'; log := (log s' ++ [Called ConsoleError true])%list |})
  end.
Proof.
  apply (pdf_path_published_without_recheck Posix.platform Scenario.env Scenario.fs
           (Scenario.all_ok "u1") "task-1" "d-3" Scenario.store Scenario.outside_link
           "/srv/shared/out/report.html").
  - split; [constructor; reflexivity|].
    exists ["/srv/shared"]. split; reflexivity.
  - reflexivity.
Defined.

(** ** Deduplication (C5, C6) *)

Lemma count_file_at_app (t : Db.Table) (r : TaskDeliverable) (taskId p : string) :
  Db.count_file_at (t ++ [r])%list taskId p
  = Db.count_file_at t taskId p + (if Db.is_file_at taskId p r then 1 else 0).
Proof.
  unfold Db.count_file_at. rewrite filter_app, length_app. simpl.
  destruct (Db.is_file_at taskId p r); reflexivity.
Qed.

Lemma select_file_at_none_count (t : Db.Table) (taskId p : string) :
  Db.select_file_at t taskId p = None -> Db.count_file_at t taskId p = 0.
Proof.
  unfold Db.select_file_at, Db.count_file_at.
  induction t as [|x t IH]; simpl; [reflexivity|].
  destruct (Db.is_file_at taskId p x); [discriminate | exact IH].
Qed.

Lemma select_file_at_some (t : Db.Table) (taskId p : string) (e : TaskDeliverable) :
  Db.select_file_at t taskId p = Some e ->
  1 <= Db.count_file_at t taskId p /\
  task_id e = taskId /\ deliverable_type e = "file" /\ path e = Some p.
Proof.
  unfold Db.select_file_at, Db.count_file_at. intros H. split.
  - induction t as [|x t IH]; simpl in *; [discriminate|].
    destruct (Db.is_file_at taskId p x); simpl; [lia | auto].
  - apply find_some in H. destruct H as [_ H]. unfold Db.is_file_at, Db.path_is in H.
    rewrite !andb_true_iff in H. destruct H as [[H1 H2] H3].
    destruct (path e) as [q|]; [|discriminate].
    apply String.eqb_eq in H1, H2, H3. subst. auto.
Qed.

Lemma is_file_at_pdf_record (newId taskId : string) (d : TaskDeliverable) (pdfPath t p : string) :
  Db.is_file_at t p (pdf_record newId taskId d pdfPath)
  = String.eqb taskId t && String.eqb pdfPath p.
Proof. unfold Db.is_file_at, Db.path_is. simpl. now rewrite andb_true_r. Qed.

Lemma find_app_some {A} (f : A -> bool) (l l' : list A) (x : A) :
  find f l = Some x -> find f (l ++ l') = Some x.
Proof.
  induction l as [|y l IH]; simpl; [discriminate|].
  destruct (f y); auto.
Qed.

(** One request adds at most the first record of a dedup key. *)
Lemma POST_keeps_keys_unique pf env fs o taskId deliverableId s t p :
  Db.count_file_at (db s) t p <= 1 ->
  Db.count_file_at (db (snd (POST pf env fs o taskId deliverableId s))) t p <= 1.
Proof.
  intros H.
  destruct (POST_db pf env fs o taskId deliverableId s) as [E|(d & _ & N & E)];
    rewrite E; [exact H|].
  rewrite count_file_at_app, is_file_at_pdf_record.
  destruct (String.eqb taskId t) eqn:E1; simpl; [|lia].
  destruct (String.eqb (pdfPath_of pf env d) p) eqn:E2; [|lia].
  apply String.eqb_eq in E1, E2. subst t p.
  rewrite (select_file_at_none_count _ _ _ N). lia.
Qed.

(** What a successful answer says about the request it answers. *)
Lemma POST_success_inv pf env fs o taskId deliverableId s p c :
  fst (POST pf env fs o taskId deliverableId s) = Returned (Json (SuccessBody p c) 200) ->
  exists d resolvedSource,
    Cleared pf env fs o taskId deliverableId s d resolvedSource /\
    p = pdfPath_of pf env d /\
    ((exists e, Db.select_file_at (db s) taskId p = Some e /\ c = Some e /\
                snd (POST pf env fs o taskId deliverableId s)
                = rendered s resolvedSource p) \/
     (Db.select_file_at (db s) taskId p = None /\
      c = Some (pdf_record (randomUUID o) taskId d p) /\
      snd (POST pf env fs o taskId deliverableId s)
      = {| db := (db s ++ [pdf_record (randomUUID o) taskId d p])%list;
           log := (log (rendered s resolvedSource p)
                   ++ [Called (BroadcastAdded (Some (pdf_record (randomUUID o) taskId d p)))
                         true])%list |})).
Proof.
  intros H.
  assert (G : exists d resolvedSource,
             Cleared pf env fs o taskId deliverableId s d resolvedSource).
  { unfold POST, bind, sql_get in H.
    destruct (get_deliverable_ok o) eqn:E0; [|discriminate].
    destruct (Db.select_deliverable (db s) deliverableId taskId) as [d|] eqn:E1;
      [|discriminate].
    destruct (no_path d || negb (String.eqb (deliverable_type d) "file")) eqn:E2;
      [discriminate|].
    destruct (test_html_ext (path_text d)) eqn:E3; [|discriminate]. simpl in H.
    destruct (existsSync fs _) eqn:E4; [|discriminate]. simpl in H.
    destruct (realpathSync fs _) as [rs|] eqn:E5; [|discriminate].
    rewrite effective_roots_run in H.
    destruct (canonical_roots env fs) as [roots|] eqn:E6; [|discriminate].
    destruct (allowed pf roots rs) eqn:E7; [|discriminate].
    apply orb_false_iff in E2. destruct E2 as [E2 E2'].
    apply negb_false_iff, String.eqb_eq in E2'.
    exists d, rs. split; [constructor; assumption | eauto]. }
  destruct G as (d & rs & C). exists d, rs. split; [exact C|].
  rewrite (POST_cleared _ _ _ _ _ _ _ _ _ C), generate_run in *.
  destruct (render_ok o) eqn:R.
  - rewrite (render_returns _ _ _ _ R), publish_run in *. simpl in *.
    destruct (find_pdf_ok o); [|discriminate].
    destruct (Db.select_file_at (db s) taskId (pdfPath_of pf env d)) as [e|] eqn:F.
    + simpl in H. injection H as <- <-. rewrite F. split; [reflexivity|]. left. eauto.
    + destruct (insert_ok o && _); [|discriminate].
      destruct (reread_ok o); [|discriminate].
      destruct (broadcast_ok o); [|discriminate].
      simpl in H. injection H as <- <-. rewrite F. split; [reflexivity|]. right. auto.
  - destruct (render_throws o rs (pdfPath_of pf env d) s R) as [l E].
    rewrite E in H. discriminate.
Qed.

(** C5.  Two requests for the same deliverable, one after the other on
    the state the first one left, with the same configuration, both
    answered with success: the second answers with the same PDF path and
    the same record as the first, a record of type [file] for the task at
    the derived [.pdf] path; it leaves the table as the first request left
    it and calls [broadcast] not once.  If the table held at most one
    record with that dedup key before the first request, it holds exactly
    one after the second. *)
Theorem second_render_returns_same_record
  pf env fs1 o1 fs2 o2 taskId deliverableId s p1 c1 p2 c2 :
  let first := POST pf env fs1 o1 taskId deliverableId s in
  let second := POST pf env fs2 o2 taskId deliverableId (snd first) in
  fst first = Returned (Json (SuccessBody p1 c1) 200) ->
  fst second = Returned (Json (SuccessBody p2 c2) 200) ->
  Db.count_file_at (db s) taskId p1 <= 1 ->
  p2 = p1 /\ c2 = c1 /\
  (exists d r, Db.select_deliverable (db s) deliverableId taskId = Some d /\
               p1 = replace_html_ext (normalize pf (expandHome env (path_text d))) ".pdf" /\
               c1 = Some r /\ task_id r = taskId /\ deliverable_type r = "file" /\
               path r = Some p1) /\
  db (snd second) = db (snd first) /\
  Db.count_file_at (db (snd second)) taskId p1 = 1 /\
  broadcasts (log (snd second)) = broadcasts (log (snd first)).
Proof.
  intros first second H1 H2 Hc. subst first second.
  destruct (POST_success_inv _ _ _ _ _ _ _ _ _ H1) as (d & rs & C & Ep & K1).
  destruct (POST_success_inv _ _ _ _ _ _ _ _ _ H2) as (d' & rs' & C' & Ep' & K2).
  set (s1 := snd (POST pf env fs1 o1 taskId deliverableId s)) in *.
  pose proof (rs_found _ _ _ _ _ _ _ _ _ (cl_gates _ _ _ _ _ _ _ _ _ C)) as Fd.
  pose proof (rs_found _ _ _ _ _ _ _ _ _ (cl_gates _ _ _ _ _ _ _ _ _ C')) as Fd'.
  assert (X : exists r, c1 = Some r /\ Db.select_file_at (db s1) taskId p1 = Some r /\
                        Db.select_deliverable (db s1) deliverableId taskId = Some d /\
                        Db.count_file_at (db s1) taskId p1 = 1 /\
                        task_id r = taskId /\ deliverable_type r = "file" /\
                        path r = Some p1).
  { destruct K1 as [(e & F & -> & E)|(F & -> & E)]; rewrite E; simpl.
    - exists e. destruct (select_file_at_some _ _ _ _ F) as (L & T).
      repeat split; try tauto. lia.
    - eexists. split; [reflexivity|]. split; [|split; [|split]].
      + apply find_app_fresh.
        * apply find_none_existsb. exact F.
        * rewrite is_file_at_pdf_record, !String.eqb_refl. reflexivity.
      + apply find_app_some. exact Fd.
      + rewrite count_file_at_app, is_file_at_pdf_record, !String.eqb_refl.
        rewrite (select_file_at_none_count _ _ _ F). reflexivity.
      + simpl. auto. }
  destruct X as (r & -> & Fr & Fd1 & Cnt & T).
  rewrite Fd1 in Fd'. injection Fd' as <-.
  rewrite <- Ep in Ep'. subst p2.
  destruct K2 as [(e & F & -> & E)|(F & _)]; [|congruence].
  rewrite Fr in F. injection F as <-.
  split; [reflexivity|]. split; [reflexivity|]. split.
  { exists d, r. tauto. }
  rewrite E. simpl. split; [reflexivity|]. split; [exact Cnt|].
  unfold broadcasts. rewrite filter_app. simpl. rewrite app_nil_r. reflexivity.
Qed.

Lemma second_render_returns_same_record_witness :
  let r := pdf_record "u1" "task-1" Scenario.report "/srv/shared/out/report.pdf" in
  let first := POST Posix.platform Scenario.env Scenario.fs (Scenario.all_ok "u1")
                 "task-1" "d-1" Scenario.store in
  let second := POST Posix.platform Scenario.env Scenario.fs (Scenario.all_ok "u2")
                  "task-1" "d-1" (snd first) in
  "/srv/shared/out/report.pdf" = "/srv/shared/out/report.pdf" /\ Some r = Some r /\
  (exists d r', Db.select_deliverable (db Scenario.store) "d-1" "task-1" = Some d /\
                "/srv/shared/out/report.pdf"
                = replace_html_ext
                    (normalize Posix.platform (expandHome Scenario.env (path_text d))) ".pdf" /\
                Some r = Some r' /\ task_id r' = "task-1" /\ deliverable_type r' = "file" /\
                path r' = Some "/srv/shared/out/report.pdf") /\
  db (snd second) = db (snd first) /\
  Db.count_file_at (db (snd second)) "task-1" "/srv/shared/out/report.pdf" = 1 /\
  broadcasts (log (snd second)) = broadcasts (log (snd first)).
Proof.
  apply (second_render_returns_same_record Posix.platform Scenario.env
           Scenario.fs (Scenario.all_ok "u1") Scenario.fs (Scenario.all_ok "u2")
           "task-1" "d-1" Scenario.store
           "/srv/shared/out/report.pdf"
           (Some (pdf_record "u1" "task-1" Scenario.report "/srv/shared/out/report.pdf"))
           "/srv/shared/out/report.pdf"
           (Some (pdf_record "u1" "task-1" Scenario.report "/srv/shared/out/report.pdf"))).
  - reflexivity.
  - reflexivity.
  - vm_compute. lia.
Defined.

(** C6, as the specification states it, fails.  The deliverables [d-1] and
    [d-2] name the same report, the second one through the directory
    symlink [/srv/shared/link].  Rendering both stores two records of type
    [file] for the task whose paths differ as text and resolve to the same
    file. *)
Lemma two_spellings_give_two_records :
  let s := serve_all Posix.platform
             [Scenario.request (Scenario.all_ok "u1") "d-1";
              Scenario.request (Scenario.all_ok "u2") "d-2"] Scenario.store in
  let r1 := pdf_record "u1" "task-1" Scenario.report "/srv/shared/out/report.pdf" in
  let r2 := pdf_record "u2" "task-1" Scenario.report_via_link "/srv/shared/link/report.pdf" in
  db s = (db Scenario.store ++ [r1; r2])%list /\
  r1 <> r2 /\
  task_id r1 = task_id r2 /\
  deliverable_type r1 = "file" /\ deliverable_type r2 = "file" /\
  realpathSync Scenario.fs "/srv/shared/out/report.pdf" = Some "/srv/shared/out/report.pdf" /\
  realpathSync Scenario.fs "/srv/shared/link/report.pdf" = Some "/srv/shared/out/report.pdf".
Proof. repeat split. discriminate. Qed.

(** C6, amended.  The dedup key is the task, the type [file] and the exact
    text of the derived PDF path (the normalized, unresolved source path
    with its extension replaced).  Requests served one after the other
    never add a second record with a key: a key carried by at most one
    record before a sequence of requests is carried by at most one record
    after it.  Records whose paths differ as text are not compared, whatever
    they resolve to. *)
Theorem renders_never_duplicate_a_path_text pf (rqs : list Request) :
  forall s t p,
    Db.count_file_at (db s) t p <= 1 ->
    Db.count_file_at (db (serve_all pf rqs s)) t p <= 1.
Proof.
  induction rqs as [|rq rqs IH]; intros s t p H; simpl; [exact H|].
  apply IH. unfold serve. apply POST_keeps_keys_unique. exact H.
Qed.

Lemma renders_never_duplicate_a_path_text_witness :
  Db.count_file_at
    (db (serve_all Posix.platform
           [Scenario.request (Scenario.all_ok "u1") "d-1";
            Scenario.request (Scenario.all_ok "u2") "d-1";
            Scenario.request (Scenario.all_ok "u3") "d-1"] Scenario.store))
    "task-1" "/srv/shared/out/report.pdf" <= 1.
Proof.
  apply (renders_never_duplicate_a_path_text Posix.platform
           [Scenario.request (Scenario.all_ok "u1") "d-1";
            Scenario.request (Scenario.all_ok "u2") "d-1";
            Scenario.request (Scenario.all_ok "u3") "d-1"] Scenario.store
           "task-1" "/srv/shared/out/report.pdf").
  vm_compute. lia.
Defined.

(** Three renders of the same deliverable store one record. *)
Example three_renders_one_record :
  Db.count_file_at
    (db (serve_all Posix.platform
           [Scenario.request (Scenario.all_ok "u1") "d-1";
            Scenario.request (Scenario.all_ok "u2") "d-1";
            Scenario.request (Scenario.all_ok "u3") "d-1"] Scenario.store))
    "task-1" "/srv/shared/out/report.pdf" = 1.
Proof. reflexivity. Qed.

(** ** The viewer's open action (C8) *)

(** C8.  [handleOpen] does nothing for a deliverable without a path.  With
    a path, a deliverable of type [url] has its path opened in a new tab
    and nothing else happens: no endpoint is fetched.  Any other
    deliverable has the preview endpoint probed first; the preview endpoint
    is opened when the probe answers ok, and the raw-download endpoint is
    opened when the probe answers not ok and when the probe throws. *)
Theorem handleOpen_negotiates_preview
  (encodeURIComponent : string -> string) (fetch : string -> Viewer.FetchResult)
  (d : TaskDeliverable) :
  let p := path_text d in
  let preview := Viewer.previewUrl encodeURIComponent p in
  let download := Viewer.downloadUrl encodeURIComponent p in
  (no_path d = true -> Viewer.handleOpen encodeURIComponent fetch d = []) /\
  (no_path d = false -> deliverable_type d = "url" ->
   Viewer.handleOpen encodeURIComponent fetch d = [Viewer.WindowOpen p "_blank"]) /\
  (no_path d = false -> deliverable_type d <> "url" ->
   exists after_probe,
     Viewer.handleOpen encodeURIComponent fetch d
     = Viewer.DebugFile p :: Viewer.Fetch preview :: after_probe /\
     (fetch preview = Viewer.Responded true ->
      after_probe = [Viewer.WindowOpen preview "_blank"]) /\
     (fetch preview = Viewer.Responded false ->
      after_probe = [Viewer.WindowOpen download "_blank"]) /\
     (fetch preview = Viewer.Rejected ->
      after_probe = [Viewer.LogError; Viewer.WindowOpen download "_blank"])).
Proof.
  intros p preview download. unfold Viewer.handleOpen.
  split; [|split].
  - intros ->. reflexivity.
  - intros -> ->. reflexivity.
  - intros -> T. apply String.eqb_neq in T. rewrite T.
    fold p. fold preview. fold download.
    eexists. split; [reflexivity|].
    destruct (fetch preview) as [[|]|]; repeat split; intros; try discriminate; reflexivity.
Qed.

Lemma handleOpen_negotiates_preview_witness :
  Viewer.handleOpen Uri.encodeURIComponent (fun _ => Viewer.Responded false) Scenario.notes
  = [Viewer.DebugFile "/srv/shared/notes.txt";
     Viewer.Fetch "/api/files/preview?path=%2Fsrv%2Fshared%2Fnotes.txt";
     Viewer.WindowOpen "/api/files/download?path=%2Fsrv%2Fshared%2Fnotes.txt&raw=true"
       "_blank"].
Proof.
  destruct (proj2 (proj2 (handleOpen_negotiates_preview
                            Uri.encodeURIComponent (fun _ => Viewer.Responded false)
                            Scenario.notes))
              eq_refl) as (after_probe & E & _ & F & _).
  - discriminate.
  - rewrite E, (F eq_refl). reflexivity.
Defined.

(** * Further properties of the route *)

(** ** How a request ends *)

(** A request either reaches the [try] block, or it ends before it with
    the state untouched: with an exception that leaves the handler or with
    one of six responses. *)
Lemma POST_outcome pf env fs o taskId deliverableId s :
  (exists d resolvedSource,
     Cleared pf env fs o taskId deliverableId s d resolvedSource /\
     POST pf env fs o taskId deliverableId s
     = generate o taskId d resolvedSource (pdfPath_of pf env d) s) \/
  (snd (POST pf env fs o taskId deliverableId s) = s /\
   (fst (POST pf env fs o taskId deliverableId s) = Thrown \/
    In (fst (POST pf env fs o taskId deliverableId s))
       [Returned deliverable_not_found; Returned not_a_file_path; Returned html_only;
        Returned source_not_found; Returned unresolvable_source;
        Returned outside_allowed])).
Proof.
  destruct (get_deliverable_ok o) eqn:E0.
  2:{ right. unfold POST, bind, sql_get. rewrite E0. simpl. auto 12. }
  destruct (Db.select_deliverable (db s) deliverableId taskId) as [d|] eqn:E1.
  2:{ right. unfold POST, bind, sql_get. rewrite E0, E1. simpl. auto 12. }
  destruct (no_path d || negb (String.eqb (deliverable_type d) "file")) eqn:E2.
  { right. unfold POST, bind, sql_get. rewrite E0, E1, E2. simpl. auto 12. }
  destruct (test_html_ext (path_text d)) eqn:E3.
  2:{ right. unfold POST, bind, sql_get. rewrite E0, E1, E2, E3. simpl. auto 12. }
  destruct (existsSync fs (sourcePath_of pf env d)) eqn:E4.
  2:{ right. unfold POST, bind, sql_get. rewrite E0, E1, E2, E3. simpl.
      unfold sourcePath_of in E4. rewrite E4. simpl. auto 12. }
  destruct (realpathSync fs (sourcePath_of pf env d)) as [rs|] eqn:E5.
  2:{ right. unfold POST, bind, sql_get. rewrite E0, E1, E2, E3. simpl.
      unfold sourcePath_of in E4, E5. rewrite E4, E5. simpl. auto 12. }
  apply orb_false_iff in E2. destruct E2 as [E2 E2'].
  apply negb_false_iff, String.eqb_eq in E2'.
  assert (G : ReachesSandbox pf env fs o taskId deliverableId s d rs)
    by (constructor; assumption).
  rewrite (POST_at_sandbox _ _ _ _ _ _ _ _ _ G).
  destruct (canonical_roots env fs) as [roots|] eqn:E6; [|right; simpl; auto 12].
  destruct (allowed pf roots rs) eqn:E7; [|right; simpl; auto 12].
  left. exists d, rs. split; [|reflexivity]. split; [exact G | eauto].
Qed.

(** The engine calls of a render: one launch, no broadcast, and the only
    file loaded and the only file written are the two it was given. *)
Lemma render_log (o : Oracle) (resolvedSource pdfPath : string) (s : State) :
  exists l,
    render o resolvedSource pdfPath s
    = (if render_ok o then Returned tt else Thrown,
       {| db := db s; log := (log s ++ l)%list |}) /\
    launches l = 1 /\ broadcasts l = 0 /\
    (forall u r, In (Called (PageGoto u) r) l -> u = "file://" ++ resolvedSource) /\
    (forall f r, In (Called (PagePdf f) r) l -> f = pdfPath).
Proof.
  unfold render, render_ok, bind, call.
  destruct (launch_ok o), (newPage_ok o), (goto_ok o), (pdf_ok o), (close_ok o);
    simpl; rewrite <- ?app_assoc; simpl; eexists;
    (split; [reflexivity|]); (split; [reflexivity|]); (split; [reflexivity|]);
    split; intros x r H; simpl in H;
    repeat (destruct H as [H|H]; [try discriminate; congruence|]); contradiction.
Qed.

(** The calls of the find-or-insert: no launch, at most one broadcast, and
    a broadcast carries the record that was just inserted. *)
Lemma publish_log (o : Oracle) (taskId : string) (d : TaskDeliverable) (pdfPath : string)
  (s : State) :
  exists l,
    log (snd (publish o taskId d pdfPath s)) = (log s ++ l)%list /\
    launches l = 0 /\ broadcasts l <= 1 /\
    (forall u r, ~ In (Called (PageGoto u) r) l) /\
    (forall f r, ~ In (Called (PagePdf f) r) l) /\
    (forall payload r, In (Called (BroadcastAdded payload) r) l ->
       payload = Some (pdf_record (randomUUID o) taskId d pdfPath) /\
       Db.select_file_at (db s) taskId pdfPath = None /\
       db (snd (publish o taskId d pdfPath s))
       = (db s ++ [pdf_record (randomUUID o) taskId d pdfPath])%list).
Proof.
  rewrite publish_run.
  assert (Z : exists l : list Event,
            log s = (log s ++ l)%list /\ launches l = 0 /\ broadcasts l <= 1 /\
            (forall u r, ~ In (Called (PageGoto u) r) l) /\
            (forall f r, ~ In (Called (PagePdf f) r) l) /\
            (forall payload r, In (Called (BroadcastAdded payload) r) l -> False)).
  { exists []. rewrite app_nil_r. simpl. repeat split; auto. }
  destruct Z as (l0 & Z1 & Z2 & Z3 & Z4 & Z5 & Z6).
  destruct (find_pdf_ok o);
    [|exists l0; simpl; repeat split; auto; intros; exfalso; eauto].
  destruct (Db.select_file_at (db s) taskId pdfPath) eqn:F;
    [exists l0; simpl; repeat split; auto; intros; exfalso; eauto|].
  cbv zeta.
  destruct (insert_ok o && _);
    [|exists l0; simpl; repeat split; auto; intros; exfalso; eauto].
  destruct (reread_ok o);
    [|exists l0; simpl; repeat split; auto; intros; exfalso; eauto].
  eexists. simpl. split; [reflexivity|]. split; [reflexivity|].
  split; [unfold broadcasts; simpl; lia|].
  split; [intros u r [H|[]]; discriminate|].
  split; [intros f r [H|[]]; discriminate|].
  intros payload r [H|[]]. injection H as <- _. auto.
Qed.

Lemma launches_app (l1 l2 : list Event) :
  launches (l1 ++ l2)%list = launches l1 + launches l2.
Proof. unfold launches. now rewrite filter_app, length_app. Qed.

Lemma broadcasts_app (l1 l2 : list Event) :
  broadcasts (l1 ++ l2)%list = broadcasts l1 + broadcasts l2.
Proof. unfold broadcasts. now rewrite filter_app, length_app. Qed.

Lemma skipn_log (l1 l2 : list Event) : skipn (length l1) (l1 ++ l2)%list = l2.
Proof. now rewrite skipn_app, skipn_all, Nat.sub_diag. Qed.

(** What the [try] block adds to the log. *)
Lemma generate_log (o : Oracle) (taskId : string) (d : TaskDeliverable)
  (resolvedSource pdfPath : string) (s : State) :
  exists l,
    log (snd (generate o taskId d resolvedSource pdfPath s)) = (log s ++ l)%list /\
    launches l = 1 /\ broadcasts l <= 1 /\
    (forall u r, In (Called (PageGoto u) r) l -> u = "file://" ++ resolvedSource) /\
    (forall f r, In (Called (PagePdf f) r) l -> f = pdfPath) /\
    (forall payload r, In (Called (BroadcastAdded payload) r) l ->
       payload = Some (pdf_record (randomUUID o) taskId d pdfPath) /\
       Db.select_file_at (db s) taskId pdfPath = None /\
       db (snd (generate o taskId d resolvedSource pdfPath s))
       = (db s ++ [pdf_record (randomUUID o) taskId d pdfPath])%list).
Proof.
  rewrite generate_run.
  destruct (render_log o resolvedSource pdfPath s) as (l1 & -> & L1 & B1 & G1 & P1).
  assert (NB : forall payload r, ~ In (Called (BroadcastAdded payload) r) l1).
  { intros payload r H. unfold broadcasts in B1.
    assert (In (Called (BroadcastAdded payload) r) (filter is_broadcast l1))
      by (apply filter_In; auto).
    destruct (filter is_broadcast l1); [contradiction | discriminate]. }
  destruct (render_ok o).
  - set (s1 := {| db := db s; log := (log s ++ l1)%list |}).
    destruct (publish_log o taskId d pdfPath s1) as (l2 & E2 & L2 & B2 & G2 & P2 & K2).
    assert (W : forall tail : list Event,
              launches tail = 0 -> broadcasts tail = 0 ->
              (forall e, In e tail -> e = Called ConsoleError true) ->
              forall s2, log s2 = (log s1 ++ l2)%list ->
                         db s2 = db (snd (publish o taskId d pdfPath s1)) ->
              exists l,
                (log s2 ++ tail)%list = (log s ++ l)%list /\
                launches l = 1 /\ broadcasts l <= 1 /\
                (forall u r, In (Called (PageGoto u) r) l -> u = "file://" ++ resolvedSource) /\
                (forall f r, In (Called (PagePdf f) r) l -> f = pdfPath) /\
                (forall payload r, In (Called (BroadcastAdded payload) r) l ->
                   payload = Some (pdf_record (randomUUID o) taskId d pdfPath) /\
                   Db.select_file_at (db s) taskId pdfPath = None /\
                   db s2 = (db s ++ [pdf_record (randomUUID o) taskId d pdfPath])%list)).
    { intros tail T1 T2 T3 s2 Hl Hd. exists (l1 ++ l2 ++ tail)%list.
      rewrite Hl. simpl. rewrite <- !app_assoc. split; [reflexivity|].
      rewrite !launches_app, !broadcasts_app, L1, L2, B1, T1, T2.
      split; [reflexivity|]. split; [lia|].
      split; [|split].
      - intros u r H. apply in_app_or in H. destruct H as [H|H]; [eauto|].
        apply in_app_or in H. destruct H as [H|H]; [exfalso; eapply G2; eauto|].
        apply T3 in H. discriminate.
      - intros f r H. apply in_app_or in H. destruct H as [H|H]; [eauto|].
        apply in_app_or in H. destruct H as [H|H]; [exfalso; eapply P2; eauto|].
        apply T3 in H. discriminate.
      - intros payload r H. apply in_app_or in H.
        destruct H as [H|H]; [exfalso; eapply NB; eauto|].
        apply in_app_or in H. destruct H as [H|H].
        + rewrite Hd. exact (K2 payload r H).
        + apply T3 in H. discriminate. }
    destruct (publish o taskId d pdfPath s1) as [[c|] s2] eqn:EP; simpl in *.
    + destruct (W [] eq_refl eq_refl (fun e H => match H with end) s2 E2 eq_refl)
        as (l & El & R). rewrite app_nil_r in El. exists l. auto.
    + apply (W [Called ConsoleError true] eq_refl eq_refl); auto.
      intros e [<-|[]]. reflexivity.
  - simpl. exists (l1 ++ [Called ConsoleError true])%list.
    rewrite <- app_assoc. split; [reflexivity|].
    rewrite launches_app, broadcasts_app, L1, B1. split; [reflexivity|].
    split; [unfold broadcasts; simpl; lia|].
    split; [|split].
    + intros u r H. apply in_app_or in H. destruct H as [H|[H|[]]]; [eauto | discriminate].
    + intros f r H. apply in_app_or in H. destruct H as [H|[H|[]]]; [eauto | discriminate].
    + intros payload r H. apply in_app_or in H.
      destruct H as [H|[H|[]]]; [exfalso; eapply NB; eauto | discriminate].
Qed.

(** The responses of the route. *)
Lemma POST_response_shape pf env fs o taskId deliverableId s body status :
  fst (POST pf env fs o taskId deliverableId s) = Returned (Json body status) ->
  In status [200; 400; 403; 404; 500] /\
  (status = 200 <-> exists p c, body = SuccessBody p c) /\
  (status <> 200 -> exists e, body = ErrorBody e /\ e <> "") /\
  (status <> 200 -> status <> 500 -> snd (POST pf env fs o taskId deliverableId s) = s).
Proof.
  intros H.
  destruct (POST_outcome pf env fs o taskId deliverableId s)
    as [(d & rs & _ & E)|(Q & [T|I])].
  - rewrite E in *.
    destruct (generate_response o taskId d rs (pdfPath_of pf env d) s) as [G|[c G]];
      rewrite G in H; injection H as <- <-.
    + split; [simpl; auto 6|]. split; [split; [discriminate | intros (p & c & X); discriminate]|].
      split; [intros _; eexists; split; [reflexivity | discriminate] | congruence].
    + split; [simpl; auto|]. split; [split; eauto|]. split; congruence.
  - rewrite T in H. discriminate.
  - simpl in I. rewrite H in I.
    destruct I as [I|[I|[I|[I|[I|[I|[]]]]]]]; injection I as <- <-;
      (split; [simpl; auto 6|]);
      (split; [split; [discriminate | intros (p & c & X); discriminate]|]);
      (split; [intros _; eexists; split; [reflexivity | discriminate] | intros _ _; exact Q]).
Qed.

(** X1.  Whatever the request, a response of the route has status 200,
    400, 403, 404 or 500; it has status 200 exactly when its body is the
    success body, and otherwise its body is a non-empty error text.  A
    response with status 400, 403 or 404 leaves the table and the log
    exactly as they were. *)
Theorem early_answers_leave_state_untouched pf env fs o taskId deliverableId s body status :
  fst (POST pf env fs o taskId deliverableId s) = Returned (Json body status) ->
  In status [200; 400; 403; 404; 500] /\
  (status = 200 <-> exists p c, body = SuccessBody p c) /\
  (status <> 200 -> exists e, body = ErrorBody e /\ e <> "") /\
  (status <> 200 -> status <> 500 -> snd (POST pf env fs o taskId deliverableId s) = s).
Proof. apply POST_response_shape. Qed.

Lemma early_answers_leave_state_untouched_witness :
  snd (POST Posix.platform Scenario.env Scenario.fs (Scenario.all_ok "u1") "task-1" "d-4"
         Scenario.store) = Scenario.store.
Proof.
  refine (proj2 (proj2 (proj2
            (early_answers_leave_state_untouched Posix.platform Scenario.env Scenario.fs
               (Scenario.all_ok "u1") "task-1" "d-4" Scenario.store
               (ErrorBody "Source path is outside allowed directories") 403 eq_refl))) _ _);
    discriminate.
Defined.

(** X2.  A request calls [chromium.launch] at most once, and it makes
    calls at all only when the resolved source path is contained in an
    existing configured root; the one URL the engine is sent to is
    [file://] followed by that resolved path, and the one file it prints
    to is the derived PDF path. *)
Theorem engine_runs_only_on_contained_sources pf env fs o taskId deliverableId s :
  exists l,
    log (snd (POST pf env fs o taskId deliverableId s)) = (log s ++ l)%list /\
    launches l <= 1 /\
    (l <> [] ->
     exists d resolvedSource,
       Db.select_deliverable (db s) deliverableId taskId = Some d /\
       realpathSync fs (sourcePath_of pf env d) = Some resolvedSource /\
       Contained pf env fs resolvedSource /\
       (forall u r, In (Called (PageGoto u) r) l -> u = "file://" ++ resolvedSource) /\
       (forall f r, In (Called (PagePdf f) r) l -> f = pdfPath_of pf env d)).
Proof.
  destruct (POST_outcome pf env fs o taskId deliverableId s)
    as [(d & rs & C & E)|(Q & _)].
  - rewrite E.
    destruct (generate_log o taskId d rs (pdfPath_of pf env d) s)
      as (l & El & L & _ & G & P & _).
    exists l. split; [exact El|]. split; [lia|]. intros _.
    exists d, rs. destruct C as [[] (roots & R & A)].
    repeat split; auto. apply (allowed_Contained _ _ _ _ _ R). exact A.
  - exists []. rewrite Q, app_nil_r. split; [reflexivity|]. split; [unfold launches; simpl; lia|].
    intros X. contradiction.
Qed.

(** X3.  The lookup is scoped to the task: when no stored deliverable has
    both the requested id and the requested task (even if the id exists
    under another task), the answer is 404 "Deliverable not found" and
    nothing else happens. *)
Theorem deliverable_of_another_task_is_not_found pf env fs o taskId deliverableId s :
  get_deliverable_ok o = true ->
  (forall r, In r (db s) -> id r = deliverableId -> task_id r <> taskId) ->
  POST pf env fs o taskId deliverableId s = (Returned deliverable_not_found, s).
Proof.
  intros G H. unfold POST, bind, sql_get. rewrite G.
  destruct (Db.select_deliverable (db s) deliverableId taskId) as [d|] eqn:F;
    [|reflexivity].
  exfalso. unfold Db.select_deliverable in F. apply find_some in F.
  destruct F as [I F]. apply andb_true_iff in F. destruct F as [F1 F2].
  apply String.eqb_eq in F1, F2. exact (H d I F1 F2).
Qed.

Lemma deliverable_of_another_task_is_not_found_witness :
  In Scenario.report (db Scenario.store) /\
  POST Posix.platform Scenario.env Scenario.fs (Scenario.all_ok "u1") "task-2" "d-1"
    Scenario.store
  = (Returned deliverable_not_found, Scenario.store).
Proof.
  split; [left; reflexivity|].
  apply (deliverable_of_another_task_is_not_found Posix.platform Scenario.env Scenario.fs
           (Scenario.all_ok "u1") "task-2" "d-1" Scenario.store).
  - reflexivity.
  - intros r [<-|[<-|[<-|[<-|[<-|[]]]]]] _; discriminate.
Defined.

(** X4.  Existence is looked at before containment.  For an HTML file
    deliverable whose normalized path does not exist the answer is 404
    "Source file not found", whatever the configured roots are and whether
    or not the path lies under one; when it exists and cannot be resolved
    the answer is 400.  In both cases nothing else happens. *)
Theorem missing_source_is_reported_before_containment
  pf env fs o taskId deliverableId s d :
  get_deliverable_ok o = true ->
  Db.select_deliverable (db s) deliverableId taskId = Some d ->
  no_path d = false -> deliverable_type d = "file" ->
  test_html_ext (path_text d) = true ->
  (existsSync fs (sourcePath_of pf env d) = false ->
   POST pf env fs o taskId deliverableId s = (Returned source_not_found, s)) /\
  (existsSync fs (sourcePath_of pf env d) = true ->
   realpathSync fs (sourcePath_of pf env d) = None ->
   POST pf env fs o taskId deliverableId s = (Returned unresolvable_source, s)).
Proof.
  intros G F P T H. unfold sourcePath_of.
  split; [intros E | intros E R]; unfold POST, bind, sql_get;
    rewrite G, F, P, T, H; simpl; rewrite E; simpl; [|rewrite R]; reflexivity.
Qed.

Lemma missing_source_is_reported_before_containment_witness :
  POST Posix.platform Scenario.env Scenario.fs (Scenario.all_ok "u1") "task-1" "d-9"
    {| db := [Scenario.file "d-9" "Gone.html" "/etc/gone.html"]; log := [] |}
  = (Returned source_not_found,
     {| db := [Scenario.file "d-9" "Gone.html" "/etc/gone.html"]; log := [] |}).
Proof.
  refine (proj1 (missing_source_is_reported_before_containment Posix.platform
                   Scenario.env Scenario.fs (Scenario.all_ok "u1") "task-1" "d-9"
                   {| db := [Scenario.file "d-9" "Gone.html" "/etc/gone.html"]; log := [] |}
                   (Scenario.file "d-9" "Gone.html" "/etc/gone.html")
                   eq_refl eq_refl eq_refl eq_refl eq_refl) eq_refl).
Defined.

Lemma resolve_all_fails (fs : FS) (l : list string) (r0 : string) :
  In r0 l -> realpathSync fs r0 = None -> resolve_all fs l = None.
Proof.
  induction l as [|x l IH]; simpl; [contradiction|].
  intros [->|I] H.
  - rewrite H. reflexivity.
  - rewrite (IH I H). destruct (realpathSync fs x); reflexivity.
Qed.

(** X5.  The roots are resolved outside every [try].  When a configured
    root exists and cannot be resolved, a request that reached the sandbox
    check ends with an exception that leaves the handler: no response is
    built, not even for a source that the other root contains, and nothing
    is launched or stored. *)
Theorem unresolvable_root_escapes_handler
  pf env fs o taskId deliverableId s d resolvedSource r0 :
  ReachesSandbox pf env fs o taskId deliverableId s d resolvedSource ->
  In r0 (getAllowedRoots env) -> existsSync fs r0 = true -> realpathSync fs r0 = None ->
  POST pf env fs o taskId deliverableId s = (Thrown, s).
Proof.
  intros G I E R. rewrite (POST_at_sandbox _ _ _ _ _ _ _ _ _ G).
  unfold canonical_roots.
  rewrite (resolve_all_fails fs _ r0); [reflexivity | apply filter_In; auto | exact R].
Qed.

Lemma unresolvable_root_escapes_handler_witness :
  POST Posix.platform Scenario.env
    {| existsSync := fun _ => true;
       realpathSync := fun p => if String.eqb p "/srv/shared/projects" then None else Some p |}
    (Scenario.all_ok "u1") "task-1" "d-1" Scenario.store
  = (Thrown, Scenario.store).
Proof.
  apply (unresolvable_root_escapes_handler Posix.platform Scenario.env
           {| existsSync := fun _ => true;
              realpathSync := fun p =>
                if String.eqb p "/srv/shared/projects" then None else Some p |}
           (Scenario.all_ok "u1") "task-1" "d-1" Scenario.store Scenario.report
           "/srv/shared/out/report.html" "/srv/shared/projects").
  - constructor; reflexivity.
  - right. left. reflexivity.
  - reflexivity.
  - reflexivity.
Defined.

(** ** What the table keeps *)

(** A path with the PDF extension put in is not an HTML path. *)
Lemma test_html_ext_pdf (base : string) : test_html_ext (base ++ ".pdf") = false.
Proof.
  induction base as [|c base IH]; [reflexivity|].
  change (String c base ++ ".pdf") with (String c (base ++ ".pdf")).
  rewrite test_html_ext_eq, IH, orb_false_r.
  destruct (html_ext_here (String c (base ++ ".pdf"))) eqn:E; [|reflexivity].
  exfalso. pose proof (html_ext_here_length _ E) as L.
  simpl in L. rewrite append_length in L. simpl in L.
  destruct base; simpl in L; [|lia].
  unfold html_ext_here in E. simpl in E.
  rewrite !andb_false_r in E. discriminate.
Qed.

Lemma test_html_ext_replaced (s : string) :
  test_html_ext (replace_html_ext s ".pdf") = false.
Proof.
  destruct (test_html_ext s) eqn:T.
  - apply test_html_ext_spec in T. destruct T as (base & ext & -> & H).
    rewrite (replace_html_ext_suffix base ext ".pdf" H). apply test_html_ext_pdf.
  - rewrite (replace_html_ext_no_match s ".pdf" T). exact T.
Qed.

(** The rows a sequence of requests adds come after the rows that were
    there. *)
Lemma serve_all_extends pf (rqs : list Request) (s : State) :
  exists added,
    db (serve_all pf rqs s) = (db s ++ added)%list /\
    length added <= length rqs /\
    Forall (fun r => deliverable_type r = "file" /\
                     description r = Some "Generated from HTML deliverable" /\
                     exists p, path r = Some p /\ test_html_ext p = false) added.
Proof.
  revert s. induction rqs as [|rq rqs IH]; intros s; simpl.
  - exists []. rewrite app_nil_r. auto.
  - destruct (IH (snd (serve pf rq s))) as (added & E & L & F). rewrite E.
    unfold serve in *.
    destruct (POST_db pf (rq_env rq) (rq_fs rq) (rq_oracle rq) (rq_taskId rq)
                (rq_deliverableId rq) s) as [D|(d & _ & _ & D)]; rewrite D.
    + exists added. split; [reflexivity|]. split; [lia | exact F].
    + eexists (_ :: added). rewrite <- app_assoc. split; [reflexivity|].
      split; [simpl; lia|]. constructor; [|exact F].
      simpl. repeat split. eexists. split; [reflexivity|].
      apply test_html_ext_replaced.
Qed.

(** X6.  Requests served one after the other never change or remove a
    stored record: the table after them is the table before them followed
    by at most one new record per request, and every new record is a
    [file] record with the fixed description and a path that is not an
    HTML path. *)
Theorem table_only_grows pf (rqs : list Request) (s : State) :
  exists added,
    db (serve_all pf rqs s) = (db s ++ added)%list /\
    length added <= length rqs /\
    Forall (fun r => deliverable_type r = "file" /\
                     description r = Some "Generated from HTML deliverable" /\
                     exists p, path r = Some p /\ test_html_ext p = false) added.
Proof. apply serve_all_extends. Qed.

(** X7.  What a lookup finds stays what it finds: once a record answers
    the lookup by task and PDF path, or the lookup by id and task, it is
    the answer of that lookup after any further requests. *)
Theorem first_matching_records_are_kept pf (rqs : list Request) (s : State) :
  (forall t p e, Db.select_file_at (db s) t p = Some e ->
                 Db.select_file_at (db (serve_all pf rqs s)) t p = Some e) /\
  (forall i t d, Db.select_deliverable (db s) i t = Some d ->
                 Db.select_deliverable (db (serve_all pf rqs s)) i t = Some d).
Proof.
  destruct (serve_all_extends pf rqs s) as (added & -> & _).
  split; intros; apply find_app_some; assumption.
Qed.

Lemma first_matching_records_are_kept_witness :
  Db.select_deliverable
    (db (serve_all Posix.platform
           [Scenario.request (Scenario.all_ok "u1") "d-1";
            Scenario.request (Scenario.all_ok "u2") "d-2"] Scenario.store))
    "d-1" "task-1" = Some Scenario.report.
Proof.
  apply (proj2 (first_matching_records_are_kept Posix.platform
                  [Scenario.request (Scenario.all_ok "u1") "d-1";
                   Scenario.request (Scenario.all_ok "u2") "d-2"] Scenario.store)).
  reflexivity.
Defined.

(** X8.  A success response carries a record, never an undefined one, and
    that record is stored: it is what the lookup by task and PDF path finds
    in the table the request leaves, it belongs to the task, has type
    [file] and has the PDF path of the response as its path.  The request
    leaves as many engines running as it found. *)
Theorem success_record_is_stored pf env fs o taskId deliverableId s p c :
  fst (POST pf env fs o taskId deliverableId s) = Returned (Json (SuccessBody p c) 200) ->
  exists r,
    c = Some r /\
    In r (db (snd (POST pf env fs o taskId deliverableId s))) /\
    Db.select_file_at (db (snd (POST pf env fs o taskId deliverableId s))) taskId p = Some r /\
    task_id r = taskId /\ deliverable_type r = "file" /\ path r = Some p /\
    live_engines (log (snd (POST pf env fs o taskId deliverableId s)))
    = live_engines (log s).
Proof.
  intros H.
  destruct (POST_success_inv _ _ _ _ _ _ _ _ _ H) as (d & rs & C & Ep & K).
  assert (L : forall tail, running 0 (log (rendered s rs p) ++ tail)%list
                           = running (running 0 (log s)) tail).
  { intros tail. unfold rendered. simpl. rewrite !running_app. reflexivity. }
  destruct K as [(e & F & -> & E)|(F & -> & E)]; rewrite E; simpl db; simpl log.
  - exists e. destruct (select_file_at_some _ _ _ _ F) as (_ & T1 & T2 & T3).
    split; [reflexivity|]. split; [apply (find_some _ _ F)|]. split; [exact F|].
    repeat split; auto. unfold live_engines.
    rewrite <- (app_nil_r (log s ++ _)). apply (L []).
  - eexists. split; [reflexivity|]. split; [apply in_or_app; right; left; reflexivity|].
    split.
    + apply find_app_fresh; [apply find_none_existsb; exact F|].
      rewrite is_file_at_pdf_record, !String.eqb_refl. reflexivity.
    + repeat split. unfold live_engines.
      exact (L [Called (BroadcastAdded (Some (pdf_record (randomUUID o) taskId d p))) true]).
Qed.

Lemma success_record_is_stored_witness :
  exists r,
    Some (pdf_record "u1" "task-1" Scenario.report "/srv/shared/out/report.pdf") = Some r /\
    In r (db (snd (POST Posix.platform Scenario.env Scenario.fs (Scenario.all_ok "u1")
                     "task-1" "d-1" Scenario.store))) /\
    Db.select_file_at
      (db (snd (POST Posix.platform Scenario.env Scenario.fs (Scenario.all_ok "u1")
                  "task-1" "d-1" Scenario.store))) "task-1" "/srv/shared/out/report.pdf"
    = Some r /\
    task_id r = "task-1" /\ deliverable_type r = "file" /\
    path r = Some "/srv/shared/out/report.pdf" /\
    live_engines (log (snd (POST Posix.platform Scenario.env Scenario.fs
                              (Scenario.all_ok "u1") "task-1" "d-1" Scenario.store)))
    = live_engines (log Scenario.store).
Proof.
  apply (success_record_is_stored Posix.platform Scenario.env Scenario.fs
           (Scenario.all_ok "u1") "task-1" "d-1" Scenario.store
           "/srv/shared/out/report.pdf"
           (Some (pdf_record "u1" "task-1" Scenario.report "/srv/shared/out/report.pdf"))).
  reflexivity.
Defined.

(** X9.  [broadcast] is called at most once in a request, and only for a
    record the request has just inserted: the payload of a call is the PDF
    record of the requested deliverable, no record carried its dedup key
    before, and the table the request leaves is the old table followed by
    that record.  This holds for a call that throws as for one that
    returns. *)
Theorem broadcast_carries_inserted_record pf env fs o taskId deliverableId s payload r :
  In (Called (BroadcastAdded payload) r)
     (skipn (length (log s)) (log (snd (POST pf env fs o taskId deliverableId s)))) ->
  broadcasts (skipn (length (log s)) (log (snd (POST pf env fs o taskId deliverableId s))))
  = 1 /\
  exists d,
    Db.select_deliverable (db s) deliverableId taskId = Some d /\
    payload = Some (pdf_record (randomUUID o) taskId d (pdfPath_of pf env d)) /\
    Db.select_file_at (db s) taskId (pdfPath_of pf env d) = None /\
    db (snd (POST pf env fs o taskId deliverableId s))
    = (db s ++ [pdf_record (randomUUID o) taskId d (pdfPath_of pf env d)])%list.
Proof.
  destruct (POST_outcome pf env fs o taskId deliverableId s)
    as [(d & rs & C & E)|(Q & _)].
  - rewrite E.
    destruct (generate_log o taskId d rs (pdfPath_of pf env d) s)
      as (l & El & _ & B & _ & _ & K).
    rewrite El, skipn_log. intros H. split.
    + assert (In (Called (BroadcastAdded payload) r) (filter is_broadcast l))
        by (apply filter_In; auto).
      unfold broadcasts in *. destruct (filter is_broadcast l); simpl in *; [contradiction|lia].
    + exists d. destruct (K payload r H) as (K1 & K2 & K3).
      destruct C as [[] _]. auto.
  - rewrite Q, skipn_all. intros [].
Qed.

Lemma broadcast_carries_inserted_record_witness :
  exists d,
    Db.select_deliverable (db Scenario.store) "d-1" "task-1" = Some d /\
    Some (pdf_record "u1" "task-1" Scenario.report "/srv/shared/out/report.pdf")
    = Some (pdf_record "u1" "task-1" d (pdfPath_of Posix.platform Scenario.env d)) /\
    Db.select_file_at (db Scenario.store) "task-1" (pdfPath_of Posix.platform Scenario.env d)
    = None /\
    db (snd (POST Posix.platform Scenario.env Scenario.fs (Scenario.broadcast_fails "u1")
               "task-1" "d-1" Scenario.store))
    = (db Scenario.store
       ++ [pdf_record "u1" "task-1" d (pdfPath_of Posix.platform Scenario.env d)])%list.
Proof.
  refine (proj2 (broadcast_carries_inserted_record Posix.platform Scenario.env Scenario.fs
                   (Scenario.broadcast_fails "u1") "task-1" "d-1" Scenario.store
                   (Some (pdf_record "u1" "task-1" Scenario.report
                            "/srv/shared/out/report.pdf")) false _)).
  vm_compute. do 5 right. left. reflexivity.
Defined.

(** X10.  A record the route has inserted is not an HTML deliverable.
    Asking the route, in any configuration, for a PDF of it is answered 400
    before the file system is looked at and nothing is launched or
    stored. *)
Theorem generated_pdf_is_refused_as_source pf env fs o taskId deliverableId s r :
  db (snd (POST pf env fs o taskId deliverableId s)) = (db s ++ [r])%list ->
  test_html_ext (path_text r) = false /\
  forall pf' env' fs' o' s',
    get_deliverable_ok o' = true ->
    Db.select_deliverable (db s') (id r) taskId = Some r ->
    POST pf' env' fs' o' taskId (id r) s' = (Returned html_only, s') \/
    POST pf' env' fs' o' taskId (id r) s' = (Returned not_a_file_path, s').
Proof.
  intros H.
  assert (T : test_html_ext (path_text r) = false).
  { destruct (POST_db pf env fs o taskId deliverableId s) as [E|(d & _ & _ & E)];
      rewrite E in H.
    - apply (f_equal (@List.length _)) in H. rewrite length_app in H. simpl in H. lia.
    - apply app_inv_head in H. injection H as <-. unfold path_text. simpl.
      unfold pdfPath_of.
      pose proof (test_html_ext_replaced (sourcePath_of pf env d)) as X.
      destruct (replace_html_ext (sourcePath_of pf env d) ".pdf"); [reflexivity | exact X]. }
  split; [exact T|]. intros pf' env' fs' o' s' G F.
  unfold POST, bind, sql_get. rewrite G, F.
  destruct (no_path r || _); [right; reflexivity|].
  rewrite T. left. reflexivity.
Qed.

Lemma generated_pdf_is_refused_as_source_witness :
  POST Posix.platform Scenario.env Scenario.fs (Scenario.all_ok "u2") "task-1" "u1"
    (snd (POST Posix.platform Scenario.env Scenario.fs (Scenario.all_ok "u1")
            "task-1" "d-1" Scenario.store))
  = (Returned html_only,
     snd (POST Posix.platform Scenario.env Scenario.fs (Scenario.all_ok "u1")
            "task-1" "d-1" Scenario.store)).
Proof.
  destruct (proj2 (generated_pdf_is_refused_as_source Posix.platform Scenario.env
                     Scenario.fs (Scenario.all_ok "u1") "task-1" "d-1" Scenario.store
                     (pdf_record "u1" "task-1" Scenario.report "/srv/shared/out/report.pdf")
                     eq_refl)
              Posix.platform Scenario.env Scenario.fs (Scenario.all_ok "u2")
              (snd (POST Posix.platform Scenario.env Scenario.fs (Scenario.all_ok "u1")
                      "task-1" "d-1" Scenario.store))
              eq_refl eq_refl) as [E|E].
  - exact E.
  - discriminate E.
Defined.

(** ** Paths and configuration *)

Lemma getSubstitution_plain (matched before after r : string) :
  has_char "$" r = false -> getSubstitution matched before after r = r.
Proof.
  induction r as [|c r IH]; simpl; [reflexivity|].
  intros H. apply orb_false_iff in H. destruct H as [-> H]. now rewrite IH.
Qed.

Lemma getSubstitution_app (matched before after a r : string) :
  has_char "$" a = false ->
  getSubstitution matched before after (a ++ r)
  = a ++ getSubstitution matched before after r.
Proof.
  induction a as [|c a IH]; intros H; [reflexivity|].
  simpl in H. apply orb_false_iff in H. destruct H as [Hc H].
  change (String c a ++ r) with (String c (a ++ r)).
  simpl. rewrite Hc, (IH H). reflexivity.
Qed.

(** X11.  With a home directory whose text has no dollar sign, a leading
    tilde is replaced by that text as it is, whatever follows the tilde
    (so [~bob/x] becomes the home directory followed by [bob/x]).  A dollar
    sign in the home directory is read as a replacement pattern of
    [String.prototype.replace]: [$$] gives one dollar sign, [$&] gives the
    tilde back, [$`] gives nothing and [$'] gives a copy of the rest of the
    path. *)
Theorem expandHome_reads_dollar_patterns (env : Env) (rest : string) :
  (forall h, HOME env = Some h -> h <> "" -> has_char "$" h = false ->
             expandHome env (String "~" rest) = h ++ rest) /\
  (forall a b, has_char "$" a = false -> has_char "$" b = false ->
     (HOME env = Some (a ++ "$$" ++ b) ->
      expandHome env (String "~" rest) = a ++ "$" ++ b ++ rest) /\
     (HOME env = Some (a ++ "$&" ++ b) ->
      expandHome env (String "~" rest) = a ++ "~" ++ b ++ rest) /\
     (HOME env = Some (a ++ "$`" ++ b) ->
      expandHome env (String "~" rest) = a ++ b ++ rest) /\
     (HOME env = Some (a ++ "$'" ++ b) ->
      expandHome env (String "~" rest) = a ++ rest ++ b ++ rest)).
Proof.
  assert (D : forall x y, or_default (Some (x ++ String "$" y)) "" = x ++ String "$" y).
  { intros x y. destruct x; reflexivity. }
  split.
  - intros h H N P. unfold expandHome. rewrite H.
    destruct h as [|c h]; [contradiction|]. simpl or_default.
    unfold replace_leading_tilde. rewrite Ascii.eqb_refl.
    now rewrite getSubstitution_plain.
  - intros a b Pa Pb.
    repeat split; intros H; unfold expandHome; rewrite H;
      simpl append; rewrite D; unfold replace_leading_tilde; rewrite Ascii.eqb_refl;
      rewrite getSubstitution_app by exact Pa; simpl;
      rewrite (getSubstitution_plain _ _ _ b Pb), ?append_assoc; simpl;
      rewrite ?append_assoc; reflexivity.
Qed.

Lemma expandHome_reads_dollar_patterns_witness :
  expandHome Scenario.env "~bob/report.html" = "/home/opbob/report.html".
Proof.
  apply (proj1 (expandHome_reads_dollar_patterns Scenario.env "bob/report.html") "/home/op").
  - reflexivity.
  - discriminate.
  - reflexivity.
Defined.



(** ** The extension pattern *)

Lemma canonicalize_letter (c x X : ascii) :
  (97 <= nat_of_ascii x <= 122) -> X = ascii_of_nat (nat_of_ascii x - 32) ->
  (Ascii.eqb (canonicalize c) (canonicalize x) = true <-> c = x \/ c = X).
Proof.
  intros R ->. rewrite Ascii.eqb_eq. unfold canonicalize.
  assert (Lx : ((97 <=? nat_of_ascii x) && (nat_of_ascii x <=? 122))%nat = true).
  { apply andb_true_iff. split; apply Nat.leb_le; lia. }
  rewrite Lx.
  pose proof (nat_ascii_bounded c) as Bc.
  destruct ((97 <=? nat_of_ascii c) && (nat_of_ascii c <=? 122))%nat eqn:Lc.
  - apply andb_true_iff in Lc. destruct Lc as [L1 L2].
    apply Nat.leb_le in L1, L2. split.
    + intros H. left. apply (f_equal nat_of_ascii) in H.
      rewrite !nat_ascii_embedding in H by lia.
      rewrite <- (ascii_nat_embedding c), <- (ascii_nat_embedding x). f_equal. lia.
    + intros [->| ->]; [reflexivity|].
      exfalso. rewrite nat_ascii_embedding in L1 by lia. lia.
  - split.
    + intros ->. right. reflexivity.
    + intros [->| ->]; [|reflexivity].
      exfalso. rewrite Lx in Lc. discriminate.
Qed.

Lemma canonicalize_dot (c : ascii) :
  Ascii.eqb (canonicalize c) (canonicalize ".") = true <-> c = "."%char.
Proof.
  rewrite Ascii.eqb_eq. change (canonicalize ".") with "."%char. unfold canonicalize.
  pose proof (nat_ascii_bounded c) as Bc.
  destruct ((97 <=? nat_of_ascii c) && (nat_of_ascii c <=? 122))%nat eqn:Lc; [|tauto].
  apply andb_true_iff in Lc. destruct Lc as [L1 L2]. apply Nat.leb_le in L1, L2.
  split.
  - intros H. apply (f_equal nat_of_ascii) in H.
    rewrite nat_ascii_embedding in H by lia.
    change (nat_of_ascii ".") with 46 in H. lia.
  - intros ->. change (nat_of_ascii ".") with 46 in L1. lia.
Qed.

(** X13.  The pattern [/\.html?$/i] accepts exactly the strings that end
    with a dot, an [h], a [t], an [m] and possibly an [l], each letter in
    either case; nothing may follow. *)
Theorem html_extension_test_spec (s : string) :
  test_html_ext s = true <->
  exists base h t m l,
    s = base ++ String "." (String h (String t (String m l))) /\
    (h = "h" \/ h = "H")%char /\ (t = "t" \/ t = "T")%char /\ (m = "m" \/ m = "M")%char /\
    (l = "" \/ l = "l" \/ l = "L").
Proof.
  assert (Hh := fun c => canonicalize_letter c "h" "H" ltac:(vm_compute; lia) eq_refl).
  assert (Ht := fun c => canonicalize_letter c "t" "T" ltac:(vm_compute; lia) eq_refl).
  assert (Hm := fun c => canonicalize_letter c "m" "M" ltac:(vm_compute; lia) eq_refl).
  assert (Hl := fun c => canonicalize_letter c "l" "L" ltac:(vm_compute; lia) eq_refl).
  rewrite test_html_ext_spec. split.
  - intros (base & ext & -> & H). unfold html_ext_here in H.
    destruct ext as [|d [|h [|t [|m l]]]];
      simpl in H; rewrite ?andb_false_r in H; try discriminate.
    exists base, h, t, m, l.
    apply orb_true_iff in H. destruct H as [H|H];
      repeat (apply andb_true_iff in H; destruct H as [?H H]);
      match goal with X : _ |- _ => apply canonicalize_dot in X; subst d end;
      (split; [reflexivity|]); rewrite <- Hh, <- Ht, <- Hm; repeat split; auto.
    + destruct l as [|x [|y l]]; simpl in H; rewrite ?andb_false_r in H; try discriminate.
      apply andb_true_iff in H. destruct H as [H _]. apply Hl in H.
      destruct H as [->| ->]; auto.
    + destruct l; [auto | discriminate].
  - intros (base & h & t & m & l & -> & Eh & Et & Em & El).
    exists base. eexists. split; [reflexivity|].
    unfold html_ext_here. simpl.
    apply Hh in Eh. apply Ht in Et. apply Hm in Em. rewrite Eh, Et, Em.
    destruct El as [->|[->| ->]]; reflexivity.
Qed.

(** ** The PDF path on a POSIX platform *)











(** * Properties of the component *)

Import Component.

Ltac conjuncts := repeat match goal with |- _ /\ _ => split end.

(** X15.  The "Generate PDF" button is shown for exactly the deliverables
    the route does not turn away at its first two gates: a row has the
    button if and only if every request that finds that deliverable is
    answered with something other than 400 "Deliverable is not a file
    path" and 400 "PDF generation currently supports HTML deliverables
    only". *)
Theorem pdf_button_matches_route_gates (v : ViewState) (d : TaskDeliverable) :
  (exists disabled, In (GeneratePdfButton disabled) (buttons v d)) <->
  (forall pf env fs o taskId deliverableId s,
     get_deliverable_ok o = true ->
     Db.select_deliverable (db s) deliverableId taskId = Some d ->
     fst (POST pf env fs o taskId deliverableId s) <> Returned not_a_file_path /\
     fst (POST pf env fs o taskId deliverableId s) <> Returned html_only).
Proof.
  assert (B : (exists disabled, In (GeneratePdfButton disabled) (buttons v d)) <->
              String.eqb (deliverable_type d) "file" && test_html_ext (path_text d) = true).
  { unfold buttons, path_text. split.
    - intros (b & H).
      destruct (String.eqb (deliverable_type d) "file" && test_html_ext (or_default (path d) ""));
        [reflexivity|].
      exfalso. simpl in H. apply in_app_or in H.
      destruct H as [H|H].
      + destruct (negb (no_path d)); simpl in H; [destruct H as [H|[]]; discriminate | contradiction].
      + destruct (String.eqb (deliverable_type d) "file" && negb (no_path d)); simpl in H;
          [destruct H as [H|[]]; discriminate | contradiction].
    - intros ->. eexists. apply in_or_app. left. right. left. reflexivity. }
  rewrite B. clear B. split.
  - intros H pf env fs o taskId deliverableId s G F.
    apply andb_true_iff in H. destruct H as [Ht Hh].
    assert (Hp : no_path d = false).
    { unfold no_path. destruct (path_text d); [discriminate | reflexivity]. }
    unfold POST, bind, sql_get. rewrite G, F, Hp, Ht, Hh. simpl.
    destruct (existsSync fs _); simpl; [|split; discriminate].
    destruct (realpathSync fs _) as [rs|]; [|split; discriminate].
    rewrite effective_roots_run.
    destruct (canonical_roots env fs) as [roots|]; [|split; discriminate].
    destruct (allowed pf roots rs); simpl; [|split; discriminate].
    match goal with |- context [generate ?a ?b ?c ?e ?f ?g] =>
      destruct (generate_response a b c e f g) as [E|[c' E]]; rewrite E end;
      split; discriminate.
  - intros H.
    specialize (H Posix.platform Scenario.no_home Scenario.fs (Scenario.all_ok "")
                  (task_id d) (id d) {| db := [d]; log := [] |} eq_refl).
    unfold POST, bind, sql_get, Db.select_deliverable in H. simpl in H.
    rewrite !String.eqb_refl in H. simpl in H. specialize (H eq_refl).
    destruct (no_path d); simpl in H; [exfalso; apply (proj1 H); reflexivity|].
    destruct (String.eqb (deliverable_type d) "file"); simpl in H;
      [|exfalso; apply (proj1 H); reflexivity].
    destruct (test_html_ext (path_text d)); [reflexivity|].
    simpl in H. exfalso. apply (proj2 H). reflexivity.
Qed.

(** X16.  For a deliverable with a path, [handleOpen] opens one window and
    only one, as its last action and in a new tab, whatever the probe
    answers: the path itself, the preview URL or the download URL. *)
Theorem handleOpen_opens_one_window
  (encodeURIComponent : string -> string) (fetch : string -> Viewer.FetchResult)
  (d : TaskDeliverable) :
  no_path d = false ->
  exists before url,
    Viewer.handleOpen encodeURIComponent fetch d
    = (before ++ [Viewer.WindowOpen url "_blank"])%list /\
    (forall u t, ~ In (Viewer.WindowOpen u t) before) /\
    (url = path_text d \/
     url = Viewer.previewUrl encodeURIComponent (path_text d) \/
     url = Viewer.downloadUrl encodeURIComponent (path_text d)).
Proof.
  intros P. unfold Viewer.handleOpen. rewrite P.
  destruct (String.eqb (deliverable_type d) "url").
  - exists [], (path_text d). split; [reflexivity|]. split; [intros u t []|auto].
  - destruct (fetch _) as [[|]|].
    + eexists [_; _], _. split; [reflexivity|].
      split; [intros u t [H|[H|[]]]; discriminate | auto].
    + eexists [_; _], _. split; [reflexivity|].
      split; [intros u t [H|[H|[]]]; discriminate | auto].
    + eexists [_; _; _], _. split; [reflexivity|].
      split; [intros u t [H|[H|[H|[]]]]; discriminate | auto].
Qed.

Lemma handleOpen_opens_one_window_witness :
  exists before url,
    Viewer.handleOpen Uri.encodeURIComponent (fun _ => Viewer.Rejected) Scenario.notes
    = (before ++ [Viewer.WindowOpen url "_blank"])%list /\
    (forall u t, ~ In (Viewer.WindowOpen u t) before) /\
    (url = path_text Scenario.notes \/
     url = Viewer.previewUrl Uri.encodeURIComponent (path_text Scenario.notes) \/
     url = Viewer.downloadUrl Uri.encodeURIComponent (path_text Scenario.notes)).
Proof.
  apply (handleOpen_opens_one_window Uri.encodeURIComponent (fun _ => Viewer.Rejected)
           Scenario.notes).
  reflexivity.
Defined.

(** X17.  [handleReveal] shows its one alert exactly when the deliverable
    has a path and the reveal request is answered not ok or throws; with no
    path it does nothing, not even the request; it never shows any other
    message. *)
Theorem handleReveal_alerts_on_failure
  (stringify_filePath : string -> string) (net : Viewer.FetchResult) (d : TaskDeliverable) :
  (forall m, In (Alert m) (handleReveal stringify_filePath net d) <->
             m = "Could not reveal file location on this server." /\
             no_path d = false /\ net <> Viewer.Responded true) /\
  (no_path d = true -> handleReveal stringify_filePath net d = []) /\
  (no_path d = false ->
   hd_error (handleReveal stringify_filePath net d)
   = Some (PostJson "/api/files/reveal" (Some (stringify_filePath (path_text d))))).
Proof.
  unfold handleReveal. split; [|split].
  - intros m. destruct (no_path d).
    + split; [intros [] | intros (_ & X & _); discriminate].
    + destruct net as [[|]|]; simpl; split.
      * intros [H|[]]. discriminate.
      * intros (_ & _ & X). contradiction.
      * intros [H|[H|[]]]; [discriminate|]. injection H as <-.
        repeat split. discriminate.
      * intros (-> & _). auto.
      * intros [H|[H|[]]]; [discriminate|]. injection H as <-.
        repeat split. discriminate.
      * intros (-> & _). auto.
  - intros ->. reflexivity.
  - intros ->. reflexivity.
Qed.

(** X18.  [handleGeneratePdf] always ends with no deliverable marked as
    generating, and it never touches the preview.  While it waits the
    button of the deliverable is disabled, afterwards it is enabled.  It
    posts once, first.  When the response is ok it reloads the list and
    shows no alert; when the response is not ok or the request throws it
    shows one alert, does not reload, and leaves the list as it was. *)
Theorem handleGeneratePdf_settles
  (taskId : string) (net : PdfResult) (reload : ListResult)
  (d : TaskDeliverable) (v : ViewState) :
  let request := PostJson ("/api/tasks/" ++ taskId ++ "/deliverables/" ++ id d ++ "/pdf") None in
  let v' := fst (handleGeneratePdf taskId net reload d v) in
  let effects := snd (handleGeneratePdf taskId net reload d v) in
  generatingPdfId v' = None /\
  previewPath v' = previewPath v /\ previewTitle v' = previewTitle v /\
  is_generating (generating d v) d = true /\ is_generating v' d = false /\
  hd_error effects = Some request /\
  ((exists error, net = PdfResponded true error) ->
   effects = request :: snd (loadDeliverables taskId reload (generating d v)) /\
   deliverables v' = deliverables (fst (loadDeliverables taskId reload v)) /\
   loading v' = false /\
   forall m, ~ In (Alert m) effects) /\
  ((forall error, net <> PdfResponded true error) ->
   deliverables v' = deliverables v /\ loading v' = loading v /\
   exists m, effects = [request; Alert m]).
Proof.
  intros request v' effects. subst request v' effects.
  unfold handleGeneratePdf, is_generating.
  destruct net as [[|] error|[m|]]; simpl.
  - destruct reload as [[|] [data|]|]; simpl; rewrite String.eqb_refl; conjuncts;
      try reflexivity;
      try (intros X; exfalso; apply (X error); reflexivity);
      intros _; conjuncts; try reflexivity;
      intros m H; simpl in H;
      repeat (destruct H as [H|H]; [discriminate|]); contradiction.
  - rewrite String.eqb_refl. conjuncts; try reflexivity.
    + intros (e & X). discriminate.
    + intros _. conjuncts; eauto.
  - rewrite String.eqb_refl. conjuncts; try reflexivity.
    + intros (e & X). discriminate.
    + intros _. conjuncts; eauto.
  - rewrite String.eqb_refl. conjuncts; try reflexivity.
    + intros (e & X). discriminate.
    + intros _. conjuncts; eauto.
Qed.

(** X19.  The route and the component agree on errors.  Whatever the
    route answers, the component reads the answer as ok exactly when it is
    the success response; for every other answer the alert shows the
    error text of the route, never the built-in fallback, and the list is
    not reloaded; for the success response the list is reloaded and no
    alert is shown. *)
Theorem route_error_reaches_alert pf env fs o taskId deliverableId s
  (task : string) (reload : ListResult) (d : TaskDeliverable) (v : ViewState)
  (response : Response) :
  fst (POST pf env fs o taskId deliverableId s) = Returned response ->
  let request := PostJson ("/api/tasks/" ++ task ++ "/deliverables/" ++ id d ++ "/pdf") None in
  (forall e status, response = Json (ErrorBody e) status ->
     handleGeneratePdf task (pdf_result_of response) reload d v
     = (settled (generating d v), [request; Alert e])) /\
  (forall p c status, response = Json (SuccessBody p c) status ->
     snd (handleGeneratePdf task (pdf_result_of response) reload d v)
     = request :: snd (loadDeliverables task reload (generating d v))).
Proof.
  intros H request. destruct response as [body status].
  destruct (POST_response_shape _ _ _ _ _ _ _ _ _ H) as (I & S & E & _).
  split.
  - intros e st X. injection X as Xb Xs. subst body st.
    assert (N : status <> 200).
    { intros Y. apply S in Y. destruct Y as (p & c & Y). discriminate. }
    destruct (E N) as (e' & X & Ne). injection X as <-.
    assert (K : res_ok status = false).
    { simpl in I. destruct I as [I|[I|[I|[I|[I|[]]]]]]; subst status;
        [contradiction | reflexivity..]. }
    unfold handleGeneratePdf, pdf_result_of. rewrite K.
    destruct e; [contradiction|]. reflexivity.
  - intros p c st X. injection X as Xb Xs. subst body st.
    assert (K : status = 200) by (apply S; eauto). subst status.
    unfold handleGeneratePdf, pdf_result_of. simpl.
    destruct (loadDeliverables task reload (generating d v)). reflexivity.
Qed.

Lemma route_error_reaches_alert_witness :
  handleGeneratePdf "task-1" (pdf_result_of outside_allowed) ListRejected Scenario.leak initial
  = (settled (generating Scenario.leak initial),
     [PostJson "/api/tasks/task-1/deliverables/d-4/pdf" None;
      Alert "Source path is outside allowed directories"]).
Proof.
  apply (proj1 (route_error_reaches_alert Posix.platform Scenario.env Scenario.fs
                  (Scenario.all_ok "u1") "task-1" "d-4" Scenario.store
                  "task-1" ListRejected Scenario.leak initial outside_allowed eq_refl)
           "Source path is outside allowed directories" 403 eq_refl).
Defined.

(** X20.  The inline preview shows the URL that [handleOpen] probes.
    After [handlePreview] on a deliverable with a path the preview frame
    points at the preview endpoint for that path and has a non-empty
    title; closing the preview removes the frame, and opening and closing
    it from a state with no preview gives that state back.  On a
    deliverable without a path [handlePreview] changes nothing. *)
Theorem preview_opens_probed_url
  (encodeURIComponent : string -> string) (d : TaskDeliverable) (v : ViewState) :
  (no_path d = false ->
   preview_src encodeURIComponent (fst (handlePreview d v))
   = Some (Viewer.previewUrl encodeURIComponent (path_text d)) /\
   previewTitle (fst (handlePreview d v)) <> "" /\
   (title d <> "" -> previewTitle (fst (handlePreview d v)) = title d) /\
   (previewPath v = None -> previewTitle v = "" ->
    closePreview (fst (handlePreview d v)) = v)) /\
  (no_path d = true -> handlePreview d v = (v, [])) /\
  preview_src encodeURIComponent (closePreview v) = None.
Proof.
  unfold handlePreview, preview_src, closePreview, Viewer.previewUrl.
  split; [|split; [intros ->; reflexivity | reflexivity]].
  intros P. rewrite P. simpl. unfold no_path in P.
  destruct (path_text d) eqn:E; [discriminate|].
  split; [reflexivity|]. split; [destruct (title d); discriminate|].
  split; [destruct (title d); [contradiction | reflexivity]|].
  intros H1 H2. destruct v. simpl in *. subst. reflexivity.
Qed.

Lemma preview_opens_probed_url_witness :
  preview_src Uri.encodeURIComponent (fst (handlePreview Scenario.report initial))
  = Some "/api/files/preview?path=%2Fsrv%2Fshared%2Fout%2Freport.html" /\
  closePreview (fst (handlePreview Scenario.report initial)) = initial.
Proof.
  destruct (proj1 (preview_opens_probed_url Uri.encodeURIComponent Scenario.report initial)
              eq_refl) as (A & _ & _ & B).
  split; [exact A | exact (B eq_refl eq_refl)].
Defined.

(** X21.  After [loadDeliverables] the component never shows the loading
    text again, whatever the request did.  The list is replaced only by
    the body of an ok response that could be parsed; in every other case
    the list on screen stays, and at mount that means a failed load looks
    the same as a task without deliverables.  The preview and the
    generating mark are not touched. *)
Theorem loadDeliverables_ends_loading (taskId : string) (net : ListResult) (v : ViewState) :
  let v' := fst (loadDeliverables taskId net v) in
  screen v' <> LoadingText /\
  (forall data, net = ListResponded true (Some data) -> deliverables v' = data) /\
  ((forall data, net <> ListResponded true (Some data)) ->
   deliverables v' = deliverables v /\
   screen (fst (loadDeliverables taskId net initial)) = NoDeliverablesYet) /\
  previewPath v' = previewPath v /\ previewTitle v' = previewTitle v /\
  generatingPdfId v' = generatingPdfId v /\
  hd_error (snd (loadDeliverables taskId net v))
  = Some (GetJson ("/api/tasks/" ++ taskId ++ "/deliverables")).
Proof.
  intros v'. subst v'. unfold loadDeliverables, screen.
  destruct net as [[|] [data|]|]; simpl;
    (split; [destruct data || idtac; try destruct (deliverables v); discriminate|]);
    (split; [intros x X; try discriminate; injection X as <-; reflexivity|]);
    (split; [intros X; try (exfalso; apply (X data); reflexivity); auto|]); auto.
Qed.
